(** * agente-virtual: the Facebook comment webhook of [api/index.py]

    A shallow embedding of the Flask view [facebook_webhook_handler] and of
    its two collaborators, [get_gemini_response] and [post_facebook_reply],
    followed by the properties of the handler's control flow.

    Python values are the ones [request.get_json()] can produce; exceptions,
    early [return]s from inside the two nested [for] loops and the calls made
    to the collaborators are explicit in a small monad. *)

From Stdlib Require Import String Ascii List ZArith Bool Lia.
Import ListNotations.
Local Open Scope string_scope.
Local Open Scope Z_scope.

(** ** Python strings

    A [str] is kept as its UTF-8 bytes, so that the literals of the source
    can be written as they are.  [str.strip()] removes, at both ends, the
    code points for which [str.isspace] holds.

    A [str] may hold a lone surrogate (U+D800..U+DFFF): [json.loads] accepts
    the escape of one.  It is kept as the three bytes its code point would
    take, [ED], then [A0]..[BF], then [80]..[BF]; no other character has
    [ED] followed by a byte from [A0]. *)

Definition utf8 (bs : list nat) : string :=
  string_of_list_ascii (map ascii_of_nat bs).

(** The 29 white-space code points of CPython, UTF-8 encoded:
    U+0009..U+000D, U+001C..U+0020, U+0085, U+00A0, U+1680, U+2000..U+200A,
    U+2028, U+2029, U+202F, U+205F, U+3000. *)
Definition whitespace : list string :=
  map utf8
    [ [9]; [10]; [11]; [12]; [13]; [28]; [29]; [30]; [31]; [32];
      [194; 133]; [194; 160]; [225; 154; 128];
      [226; 128; 128]; [226; 128; 129]; [226; 128; 130]; [226; 128; 131];
      [226; 128; 132]; [226; 128; 133]; [226; 128; 134]; [226; 128; 135];
      [226; 128; 136]; [226; 128; 137]; [226; 128; 138];
      [226; 128; 168]; [226; 128; 169]; [226; 128; 175];
      [226; 129; 159]; [227; 128; 128] ]%nat.

Definition rev_string (s : string) : string :=
  string_of_list_ascii (rev (list_ascii_of_string s)).

Definition drop_string (n : nat) (s : string) : string :=
  substring n (String.length s - n) s.

(** Drops leading occurrences of the entries of [table]; every entry is at
    least one byte long, so [String.length s] rounds are enough. *)
Fixpoint lstrip_with (table : list string) (fuel : nat) (s : string) : string :=
  match fuel with
  | O => s
  | S fuel' =>
      match find (fun w => prefix w s) table with
      | Some w => lstrip_with table fuel' (drop_string (String.length w) s)
      | None => s
      end
  end.

Definition lstrip (s : string) : string :=
  lstrip_with whitespace (String.length s) s.

Definition rstrip (s : string) : string :=
  rev_string (lstrip_with (map rev_string whitespace) (String.length s) (rev_string s)).

Definition strip (s : string) : string := rstrip (lstrip s).

(** Number of bytes of the UTF-8 sequence that starts with byte [b]. *)
Definition utf8_width (b : ascii) : nat :=
  let n := nat_of_ascii b in
  if (n <? 192)%nat then 1%nat
  else if (n <? 224)%nat then 2%nat
  else if (n <? 240)%nat then 3%nat
  else 4%nat.

(** The characters of a string, as iterating over a [str] yields them. *)
Fixpoint chars_of (fuel : nat) (s : string) : list string :=
  match fuel with
  | O => []
  | S fuel' =>
      match s with
      | EmptyString => []
      | String b _ =>
          let w := utf8_width b in
          substring 0 w s :: chars_of fuel' (drop_string w s)
      end
  end.

Definition chars (s : string) : list string := chars_of (String.length s) s.

(** Whether [s] holds a lone surrogate.  Such a string cannot be encoded
    as UTF-8: [print] and the form encoding of [requests] raise
    [UnicodeEncodeError] on it. *)
Fixpoint has_surrogate (s : string) : bool :=
  match s with
  | String a (String b _ as rest) =>
      (Nat.eqb (nat_of_ascii a) 237 &&
       Nat.leb 160 (nat_of_ascii b) && Nat.leb (nat_of_ascii b) 191)
      || has_surrogate rest
  | _ => false
  end.

(** ** Python values delivered by [request.get_json()]

    [None], [bool], [int], [str], [list] and [dict].  A [dict] keeps its
    items in insertion order, with distinct keys.  JSON numbers with a
    fraction or an exponent are outside this model. *)

#[local] Set Warnings "-register-all".

Inductive value : Type :=
| PyNone
| PyBool (b : bool)
| PyInt (n : Z)
| PyStr (s : string)
| PyList (xs : list value)
| PyDict (items : list (string * value)).

Inductive exn : Type :=
| AttributeError
| TypeError
| UnicodeEncodeError
| OtherException (class : string).

(** Item of key [k] in the items of a [dict]. *)
Fixpoint lookup (k : string) (items : list (string * value)) : option value :=
  match items with
  | [] => None
  | (k', v) :: rest => if String.eqb k k' then Some v else lookup k rest
  end.

(** Python's [==] on these values: [bool] is a subtype of [int]
    ([True == 1]); values of unrelated types are unequal; lists compare
    elementwise and dicts as maps. *)
Fixpoint py_eq (a b : value) {struct a} : bool :=
  match a, b with
  | PyNone, PyNone => true
  | PyBool x, PyBool y => Bool.eqb x y
  | PyBool x, PyInt n => Z.eqb (Z.b2z x) n
  | PyInt m, PyBool y => Z.eqb m (Z.b2z y)
  | PyInt m, PyInt n => Z.eqb m n
  | PyStr s, PyStr t => String.eqb s t
  | PyList xs, PyList ys =>
      (fix all2 (xs ys : list value) {struct xs} : bool :=
         match xs, ys with
         | [], [] => true
         | x :: xs', y :: ys' => py_eq x y && all2 xs' ys'
         | _, _ => false
         end) xs ys
  | PyDict d, PyDict e =>
      Nat.eqb (List.length d) (List.length e) &&
      (fix sub (d : list (string * value)) {struct d} : bool :=
         match d with
         | [] => true
         | (k, v) :: d' =>
             match lookup k e with
             | Some w => py_eq v w
             | None => false
             end && sub d'
         end) d
  | _, _ => false
  end.

(** [d.get(key, default)] on the items of a [dict]. *)
Definition dict_get (items : list (string * value)) (key : string) (default : value) : value :=
  match lookup key items with
  | Some v => v
  | None => default
  end.

(** [x.get(key, default)]: only a [dict] has the method. *)
Definition py_get (x : value) (key : string) (default : value) : exn + value :=
  match x with
  | PyDict items => inr (dict_get items key default)
  | _ => inl AttributeError
  end.

(** [x.strip()]: only a [str] has the method. *)
Definition py_strip (x : value) : exn + string :=
  match x with
  | PyStr s => inr (strip s)
  | _ => inl AttributeError
  end.

(** The elements a [for] loop over [x] visits: the elements of a list, the
    keys of a dict, the characters of a string; anything else is not
    iterable. *)
Definition py_iter (x : value) : exn + list value :=
  match x with
  | PyList xs => inr xs
  | PyDict items => inr (map (fun kv => PyStr (fst kv)) items)
  | PyStr s => inr (map PyStr (chars s))
  | _ => inl TypeError
  end.

(** ** Requests, responses and the process-wide configuration *)

(** What the view reads of a Flask [request]: the method, the query
    parameters ([request.args.get] gives the first value of a key, or
    [None]) and the value [request.get_json()] returns. *)
Record request : Type := {
  method : string;
  args : list (string * string);
  get_json : value
}.

Fixpoint args_get (key : string) (params : list (string * string)) : option string :=
  match params with
  | [] => None
  | (k, v) :: rest => if String.eqb key k then Some v else args_get key rest
  end.

Record response : Type := {
  body : string;
  status : Z
}.

Inductive GenerativeModel : Type :=
| Model (name : string).

(** The module-level globals, read once at start-up.  [gemini_model] is
    [None] when [genai.configure] or the model's construction raised. *)
Record config : Type := {
  FB_VERIFY_TOKEN : option string;
  FB_PAGE_ACCESS_TOKEN : option string;
  GEMINI_API_KEY : option string;
  gemini_model : option GenerativeModel
}.

(** [x == y] for two values that are each a [str] or [None]. *)
Definition opt_eqb (x y : option string) : bool :=
  match x, y with
  | Some s, Some t => String.eqb s t
  | None, None => true
  | _, _ => false
  end.

(** ** The two outbound services *)

(** [gemini_model.generate_content(prompt)] followed by [response.text]:
    a text, or an exception raised on the way. *)
Inductive gen_result : Type :=
| GenText (text : string)
| GenRaises.

(** The [try] statement of [post_facebook_reply], lines 78-87, once the
    form is encoded: [requests.post], [raise_for_status], [response.json()]
    and the print of the answer complete; or a [RequestException] is raised
    and handled, with the text of its response when it has one; or an
    exception leaves the statement, being of another class or raised in the
    handler. *)
Inductive post_result : Type :=
| PostOk
| PostRaises (response_text : option string)
| PostError (e : exn).

(** An f-string is kept as its parts; [Fmt v] stands for [str(v)]. *)
Inductive fpart : Type :=
| Lit (s : string)
| Fmt (v : value).

(** In an f-string a [str] is put as it is; [None], numbers, lists and
    dicts are put through [repr], which escapes a surrogate. *)
Definition unprintable (v : value) : bool :=
  match v with
  | PyStr s => has_surrogate s
  | _ => false
  end.

Definition part_unprintable (p : fpart) : bool :=
  match p with
  | Lit s => has_surrogate s
  | Fmt v => unprintable v
  end.

(** The invocations of the two collaborators, in the order they are made. *)
Inductive call : Type :=
| GeneratorCall (user_comment_text page_name page_description : string)
| PosterCall (comment_id : value) (message : string).

Definition dquote : string := String (ascii_of_nat 34) EmptyString.
Definition nl : string := String (ascii_of_nat 10) EmptyString.

(** The prompt of [get_gemini_response]; the two page parameters do not
    occur in it. *)
Definition prompt (user_comment_text : string) : string :=
  "Eres un asistente virtual amigable y servicial para la página de Facebook 'undertk studio', que es una agencia de marketing que tiene servicios de creación de contenido pauta y contenido organico asi como desarrollo de sitios web." ++ nl ++
  "Un usuario ha comentado: " ++ dquote ++ user_comment_text ++ dquote ++ nl ++
  nl ++
  "Tu tarea es:" ++ nl ++
  "1. Analiza el comentario del usuario." ++ nl ++
  "2. Si es una pregunta general que puedes responder, hazlo de forma concisa y amigable." ++ nl ++
  "3. Si la pregunta es muy específica, sobre un pedido, un problema personal, o requiere información que no tienes, sugiere amablemente que contacten por mensaje privado o indica que un humano del equipo responderá pronto." ++ nl ++
  "4. Si el comentario no es una pregunta (ej. un saludo, un agradecimiento), responde de forma apropiada." ++ nl ++
  "5. No inventes información. Si no sabes la respuesta a una pregunta específica, admítelo." ++ nl ++
  nl ++
  "la información general la puedes encontrar en el sitio https://www.undertk.studio/" ++ nl ++
  " si piden información más detallada proporcionales el siguiente enlace de whatsapp https://api.whatsapp.com/send/?phone=525568764719&text&type=phone_number&app_absent=0" ++ nl ++
  nl ++
  "Responde directamente al comentario del usuario." ++ nl.

(** The two fixed replies of [get_gemini_response] when no text was
    generated. *)
Definition fallback_no_model : string :=
  "Lo siento, estoy teniendo problemas técnicos en este momento.".

Definition fallback_exception : string :=
  "Lo siento, no pude procesar tu solicitud con la IA en este momento.".

(** ** Statements with exceptions and early return *)

Inductive outcome (A : Type) : Type :=
| Normal (a : A)
| Returned (r : response)
| Raised (e : exn).

Arguments Normal {A} a.
Arguments Returned {A} r.
Arguments Raised {A} e.

Section Statements.

Context {World : Type}.

(** The outside world and the calls made so far. *)
Record state : Type := {
  world : World;
  calls : list call
}.

Definition M (A : Type) : Type := state -> outcome A * state.

Definition ret {A} (a : A) : M A := fun st => (Normal a, st).

Definition bind {A B} (m : M A) (k : A -> M B) : M B :=
  fun st =>
    match m st with
    | (Normal a, st') => k a st'
    | (Returned r, st') => (Returned r, st')
    | (Raised e, st') => (Raised e, st')
    end.

Definition raise {A} (e : exn) : M A := fun st => (Raised e, st).

(** The [return] statement. *)
Definition return_ {A} (r : response) : M A := fun st => (Returned r, st).

(** A Python operation that may raise. *)
Definition lift {A} (x : exn + A) : M A :=
  match x with
  | inl e => raise e
  | inr a => ret a
  end.

Definition record_call (c : call) : M unit :=
  fun st => (Normal tt, {| world := world st; calls := calls st ++ [c] |}).

(** A function call: the callee's [return] gives the call its value. *)
Definition call_view (m : M response) : M response :=
  fun st =>
    match m st with
    | (Returned r, st') => (Normal r, st')
    | other => other
    end.

(** [for x in xs: body x] *)
Fixpoint for_each {A} (body : A -> M unit) (xs : list A) : M unit :=
  match xs with
  | [] => ret tt
  | x :: rest => bind (body x) (fun _ => for_each body rest)
  end.

(** [print] of an f-string: the text is encoded as UTF-8 for standard
    output, which a lone surrogate makes fail.  What is printed is not
    kept. *)
Definition py_print (text : list fpart) : M unit :=
  if existsb part_unprintable text then raise UnicodeEncodeError else ret tt.

(** Flask's [make_response(rv, status)]; a [None] body is refused. *)
Definition make_response (rv : option string) (code : Z) : M response :=
  match rv with
  | Some s => ret {| body := s; status := code |}
  | None => raise TypeError
  end.

(** A run from [st] that only added calls and did not raise, and whose
    [return], if any, carries status 200. *)
Definition acknowledging {A} (st : state) (run : outcome A * state) : Prop :=
  (exists more, calls (snd run) = (calls st ++ more)%list) /\
  match fst run with
  | Normal _ => True
  | Returned r => status r = 200
  | Raised _ => False
  end.

End Statements.

Arguments state : clear implicits.
Arguments M : clear implicits.

Declare Scope stmt_scope.
Delimit Scope stmt_scope with stmt.
Notation "x <- m ;; k" := (bind m (fun x => k))
  (at level 100, m at next level, right associativity) : stmt_scope.
Notation "m ;;; k" := (bind m (fun _ => k))
  (at level 100, right associativity) : stmt_scope.
Local Open Scope stmt_scope.

Section Handler.

(** How the two services answer, and the configuration in force. *)
Context {World : Type}.
Variable generate_content : GenerativeModel -> string -> World -> gen_result * World.
Variable requests_post : list fpart -> list (string * string) -> World -> post_result * World.
Variable cfg : config.

Definition ask_gemini (m : GenerativeModel) (p : string) : M World gen_result :=
  fun st =>
    let (r, w) := generate_content m p (world st) in
    (Normal r, {| world := w; calls := calls st |}).

(** [requests.post(url, data=...)] encodes the form first: a value with
    a lone surrogate raises [UnicodeEncodeError] and nothing is sent. *)
Definition ask_requests_post (url : list fpart) (data : list (string * string))
  : M World post_result :=
  fun st =>
    if existsb (fun kv => has_surrogate (snd kv)) data then
      (Normal (PostError UnicodeEncodeError), st)
    else
      let (r, w) := requests_post url data (world st) in
      (Normal r, {| world := w; calls := calls st |}).

(** ** The collaborators

    A [print] of a constant text cannot fail and is left out; so is the
    print of line 109, whose [json.dumps] escapes every character outside
    ASCII.  The prints that put a value of the payload or a reply into
    their text are kept, for what they can raise. *)

(** [get_gemini_response], lines 27-63: the broad [except] turns every
    failure of the service into the second apology.  Its prints are of
    constant texts, but for the text of the exception at line 62, which
    belongs to the client library. *)
Definition get_gemini_response
  (user_comment_text page_name page_description : string) : M World string :=
  record_call (GeneratorCall user_comment_text page_name page_description) ;;;
  match gemini_model cfg with
  | None => ret fallback_no_model
  | Some m =>
      r <- ask_gemini m (prompt user_comment_text) ;;
      match r with
      | GenText text => ret text
      | GenRaises => ret fallback_exception
      end
  end.

(** [post_facebook_reply], lines 65-87: [False] without an access token or
    on a [RequestException], [True] when the exchange completes; only
    [RequestException] is caught, an exception of another class leaves the
    function. *)
Definition post_facebook_reply (comment_id : value) (message : string) : M World bool :=
  record_call (PosterCall comment_id message) ;;;
  match FB_PAGE_ACCESS_TOKEN cfg with
  | Some token =>
      if String.eqb token "" then ret false
      else
        let post_url :=
          [Lit "https://graph.facebook.com/v23.0/"; Fmt comment_id; Lit "/comments"] in
        let payload := [("message", message); ("access_token", token)] in
        r <- ask_requests_post post_url payload ;;
        match r with
        | PostOk => ret true
        | PostRaises _ => ret false
        | PostError e => raise e
        end
  | None => ret false
  end.

(** ** The view, lines 96-177 *)

(** Body of the inner loop, for one [change] of an entry whose id is
    [page_id_from_event]. *)
Definition handle_change (page_id_from_event change : value) : M World unit :=
  field <- lift (py_get change "field" PyNone) ;;
  if py_eq field (PyStr "feed") then
    item_value <- lift (py_get change "value" (PyDict [])) ;;
    item_type <- lift (py_get item_value "item" PyNone) ;;
    if py_eq item_type (PyStr "comment") then
      comment_id <- lift (py_get item_value "comment_id" PyNone) ;;
      message <- lift (py_get item_value "message" (PyStr "")) ;;
      user_message <- lift (py_strip message) ;;
      sender <- lift (py_get item_value "from" (PyDict [])) ;;
      sender_id <- lift (py_get sender "id" PyNone) ;;
      py_print [Lit "DEBUG: Nuevo comentario detectado. ID: "; Fmt comment_id;
                Lit ", Remitente: "; Fmt sender_id;
                Lit ", Mensaje: '"; Fmt (PyStr user_message); Lit "'"] ;;;
      if py_eq sender_id page_id_from_event then
        r <- make_response (Some "EVENT_RECEIVED_FROM_PAGE_ITSELF") 200 ;;
        return_ r
      else if String.eqb user_message "" then
        r <- make_response (Some "EVENT_RECEIVED_EMPTY_COMMENT") 200 ;;
        return_ r
      else
        py_print [Lit "DEBUG: Procesando comentario '"; Fmt (PyStr user_message);
                  Lit "' para respuesta de IA."] ;;;
        ai_response <- get_gemini_response user_message "Tu Página de FB" "asistente virtual" ;;
        py_print [Lit "DEBUG: Respuesta generada por Gemini: '"; Fmt (PyStr ai_response);
                  Lit "'"] ;;;
        if negb (String.eqb ai_response "") then
          success <- post_facebook_reply comment_id ai_response ;;
          ret tt
        else ret tt
    else
      py_print [Lit "DEBUG: Item del feed no es un comentario, es '"; Fmt item_type;
                Lit "'. Ignorando."]
  else ret tt.

(** Body of the outer loop, for one [entry]. *)
Definition handle_entry (entry : value) : M World unit :=
  page_id_from_event <- lift (py_get entry "id" PyNone) ;;
  changes <- lift (py_get entry "changes" (PyList [])) ;;
  changes <- lift (py_iter changes) ;;
  for_each (handle_change page_id_from_event) changes.

(** The view itself.  An exception that leaves it is not caught anywhere:
    the request then ends without a response of the handler.  The method of
    a request is ASCII, so the print of line 176 cannot fail. *)
Definition facebook_webhook_handler (req : request) : M World response :=
  call_view (
    if String.eqb (method req) "GET" then
      let verify_token := args_get "hub.verify_token" (args req) in
      if opt_eqb verify_token (FB_VERIFY_TOKEN cfg) then
        let challenge := args_get "hub.challenge" (args req) in
        r <- make_response challenge 200 ;;
        return_ r
      else
        r <- make_response (Some "Error, token de verificación incorrecto") 403 ;;
        return_ r
    else if String.eqb (method req) "POST" then
      let data := get_json req in
      object <- lift (py_get data "object" PyNone) ;;
      (if py_eq object (PyStr "page") then
         entries <- lift (py_get data "entry" (PyList [])) ;;
         entries <- lift (py_iter entries) ;;
         for_each handle_entry entries
       else
         py_print [Lit "DEBUG: Objeto de la solicitud POST no es 'page': "; Fmt object]) ;;;
      r <- make_response (Some "EVENT_RECEIVED") 200 ;;
      return_ r
    else
      r <- make_response (Some "Método no permitido") 405 ;;
      return_ r).

(** ** Where a delivery stands when the loops reach a given change *)

(** [req] is a delivery for a page whose entries are [es1], then the
    entry [e], then [es2], the changes of [e] being [cs1], then [change],
    then [cs2]. *)
Definition delivery_at (req : request) (es1 : list value)
  (e : list (string * value)) (cs1 : list value) (change : value)
  (cs2 es2 : list value) : Prop :=
  method req = "POST" /\
  exists d,
    get_json req = PyDict d /\
    lookup "object" d = Some (PyStr "page") /\
    lookup "entry" d = Some (PyList (es1 ++ PyDict e :: es2)) /\
    lookup "changes" e = Some (PyList (cs1 ++ change :: cs2)).

(** From [st], the entries [es1] and then the changes [cs1] of [e] are
    handled to their end, neither returning nor raising, and leave [st']. *)
Definition prefix_done (es1 : list value) (e : list (string * value))
  (cs1 : list value) (st st' : state World) : Prop :=
  exists st1,
    for_each handle_entry es1 st = (Normal tt, st1) /\
    for_each (handle_change (dict_get e "id" PyNone)) cs1 st1 = (Normal tt, st').

(** The surroundings do their part: the generative service answers with
    text that can be encoded, the exchange with the Graph API raises nothing
    but [RequestException], and the access token can be encoded. *)
Definition well_behaved : Prop :=
  (forall m p w text,
     fst (generate_content m p w) = GenText text -> has_surrogate text = false) /\
  (forall url data w e, fst (requests_post url data w) <> PostError e) /\
  match FB_PAGE_ACCESS_TOKEN cfg with
  | Some token => has_surrogate token = false
  | None => True
  end.

(** The generative service gives no text for [text] in the state [st]:
    there is no model, or the call raises. *)
Definition service_fails (text : string) (st : state World) : Prop :=
  match gemini_model cfg with
  | None => True
  | Some m => fst (generate_content m (prompt text) (world st)) = GenRaises
  end.

End Handler.

(** ** The payload of section 3 of the specification, on Python values *)

Definition is_str (v : value) : bool :=
  match v with PyStr _ => true | _ => false end.

Definition is_dict (v : value) : bool :=
  match v with PyDict _ => true | _ => false end.

(** The field [key] is absent, or its value satisfies [p]. *)
Definition optional (p : value -> bool) (key : string)
  (items : list (string * value)) : bool :=
  match lookup key items with
  | Some v => p v
  | None => true
  end.

Definition list_of (p : value -> bool) (v : value) : bool :=
  match v with PyList xs => forallb p xs | _ => false end.

Definition dict_with (p : list (string * value) -> bool) (v : value) : bool :=
  match v with PyDict items => p items | _ => false end.

(** [{item, comment_id, message: str, from: {id}}] *)
Definition value_shape : value -> bool :=
  dict_with (fun v => optional is_str "message" v && optional is_dict "from" v).

(** [{field, value}] *)
Definition change_shape : value -> bool :=
  dict_with (optional value_shape "value").

(** [{id, changes: [change]}] *)
Definition entry_shape : value -> bool :=
  dict_with (optional (list_of change_shape) "changes").

(** [{object, entry: [entry]}]: a NotificationPayload.  Every field may be
    absent; the fields that are only compared or passed on ([object], [id],
    [field], [item], [comment_id], the sender's [id]) may hold any value. *)
Definition notification_payload : value -> bool :=
  dict_with (optional (list_of entry_shape) "entry").

(** The CommentEvent view of a change: its comment id, message text and
    sender id, when the change has [field == "feed"] and
    [item == "comment"] and the shape above. *)
Definition comment_event (change : value) : option (value * string * value) :=
  match change with
  | PyDict c =>
      if py_eq (dict_get c "field" PyNone) (PyStr "feed") then
        match dict_get c "value" (PyDict []) with
        | PyDict v =>
            if py_eq (dict_get v "item" PyNone) (PyStr "comment") then
              match dict_get v "message" (PyStr ""), dict_get v "from" (PyDict []) with
              | PyStr m, PyDict f =>
                  Some (dict_get v "comment_id" PyNone, m, dict_get f "id" PyNone)
              | _, _ => None
              end
            else None
        | _ => None
        end
      else None
  | _ => None
  end.

(** ** What the handler logs of a payload *)

(** The print of line 129 goes through for a comment event: neither its
    comment id, nor its sender id, nor its stripped message holds a lone
    surrogate. *)
Definition loggable (ev : value * string * value) : bool :=
  let '(comment_id, message, sender_id) := ev in
  negb (unprintable comment_id) && negb (unprintable sender_id) &&
  negb (has_surrogate (strip message)).

(** The same for the fields of a [value], of a change, of an entry and of
    a payload that the handler may print: [item], [comment_id], the
    stripped [message], the sender's [id] and [object]. *)
Definition value_prints (v : list (string * value)) : bool :=
  negb (unprintable (dict_get v "item" PyNone)) &&
  negb (unprintable (dict_get v "comment_id" PyNone)) &&
  match dict_get v "message" (PyStr "") with
  | PyStr m => negb (has_surrogate (strip m))
  | _ => true
  end &&
  match dict_get v "from" (PyDict []) with
  | PyDict f => negb (unprintable (dict_get f "id" PyNone))
  | _ => true
  end.

Definition change_prints (change : value) : bool :=
  match change with
  | PyDict c =>
      match dict_get c "value" (PyDict []) with
      | PyDict v => value_prints v
      | _ => true
      end
  | _ => true
  end.

Definition entry_prints (entry : value) : bool :=
  match entry with
  | PyDict e =>
      match dict_get e "changes" (PyList []) with
      | PyList cs => forallb change_prints cs
      | _ => true
      end
  | _ => true
  end.

Definition payload_prints (data : value) : bool :=
  match data with
  | PyDict d =>
      negb (unprintable (dict_get d "object" PyNone)) &&
      match dict_get d "entry" (PyList []) with
      | PyList es => forallb entry_prints es
      | _ => true
      end
  | _ => true
  end.

(** ** Sample configuration, services and deliveries *)

Module Samples.

Definition cfg : config :=
  {| FB_VERIFY_TOKEN := Some "secreto";
     FB_PAGE_ACCESS_TOKEN := Some "EAAB-token";
     GEMINI_API_KEY := Some "clave";
     gemini_model := Some (Model "gemini-2.0-flash") |}.

(** The same, with nothing set in the environment. *)
Definition cfg_unset : config :=
  {| FB_VERIFY_TOKEN := None;
     FB_PAGE_ACCESS_TOKEN := None;
     GEMINI_API_KEY := None;
     gemini_model := Some (Model "gemini-2.0-flash") |}.

(** The world counts the outbound requests made. *)
Definition gemini (answer : gen_result)
  : GenerativeModel -> string -> nat -> gen_result * nat :=
  fun _ _ n => (answer, S n).

Definition graph_api (answer : post_result)
  : list fpart -> list (string * string) -> nat -> post_result * nat :=
  fun _ _ n => (answer, S n).

Definition start : state nat := {| world := 0%nat; calls := [] |}.

Definition comment (comment_id message sender : string) : value :=
  PyDict [("field", PyStr "feed");
          ("value", PyDict [("item", PyStr "comment");
                            ("comment_id", PyStr comment_id);
                            ("message", PyStr message);
                            ("from", PyDict [("id", PyStr sender)])])].

Definition page_entry (page_id : string) (changes : list value) : list (string * value) :=
  [("id", PyStr page_id); ("changes", PyList changes)].

Definition delivery (entries : list value) : request :=
  {| method := "POST";
     args := [];
     get_json := PyDict [("object", PyStr "page"); ("entry", PyList entries)] |}.

Definition verification (params : list (string * string)) : request :=
  {| method := "GET"; args := params; get_json := PyNone |}.

Definition question : value := comment "c_1" "  ¿Hacen sitios web? " "user_7".
Definition own_comment : value := comment "c_2" "Gracias por escribir" "page_1".
Definition blank_comment : value := comment "c_3" "   " "user_8".

(** A comment whose [message] is [null]. *)
Definition null_message : value :=
  PyDict [("field", PyStr "feed");
          ("value", PyDict [("item", PyStr "comment");
                            ("comment_id", PyStr "c_4");
                            ("message", PyNone);
                            ("from", PyDict [("id", PyStr "user_9")])])].

End Samples.

(** ** Further views of a delivery and of the calls it causes *)

(** The calls of a request come as exchanges: a generator call for a text
    that is not empty, followed or not by the poster call for a reply that
    is not empty. *)
Fixpoint exchanges (l : list call) : bool :=
  match l with
  | [] => true
  | GeneratorCall text _ _ :: rest =>
      negb (String.eqb text "") &&
      match rest with
      | PosterCall _ reply :: rest' => negb (String.eqb reply "") && exchanges rest'
      | _ => exchanges rest
      end
  | PosterCall _ _ :: _ => false
  end.

(** The texts handed to the generator, in order. *)
Definition generator_texts (l : list call) : list string :=
  flat_map (fun c => match c with
                     | GeneratorCall text _ _ => [text]
                     | PosterCall _ _ => []
                     end) l.

(** The three bodies with which a delivery is acknowledged. *)
Definition acknowledgement (r : response) : bool :=
  Z.eqb (status r) 200 &&
  (String.eqb (body r) "EVENT_RECEIVED" ||
   String.eqb (body r) "EVENT_RECEIVED_FROM_PAGE_ITSELF" ||
   String.eqb (body r) "EVENT_RECEIVED_EMPTY_COMMENT").

(** A change the inner loop passes over: an object whose [field] is not
    "feed" (its [value] is then not looked at), or a feed change whose
    [value] is an object with an [item] other than "comment", which the
    print of line 165 can put in its text. *)
Definition not_a_comment (change : value) : bool :=
  match change with
  | PyDict c =>
      if py_eq (dict_get c "field" PyNone) (PyStr "feed") then
        match dict_get c "value" (PyDict []) with
        | PyDict v =>
            negb (py_eq (dict_get v "item" PyNone) (PyStr "comment")) &&
            negb (unprintable (dict_get v "item" PyNone))
        | _ => false
        end
      else true
  | _ => false
  end.

Definition without_comments (entry : value) : bool :=
  match entry with
  | PyDict e =>
      match dict_get e "changes" (PyList []) with
      | PyList cs => forallb not_a_comment cs
      | _ => false
      end
  | _ => false
  end.

(** The stripped message of a comment event that can be logged and
    passes both guards for the page [page_id]. *)
Definition answerable (page_id change : value) : option string :=
  match comment_event change with
  | Some (comment_id, message, sender_id) =>
      if negb (loggable (comment_id, message, sender_id)) then None
      else if py_eq sender_id page_id then None
      else if String.eqb (strip message) "" then None
      else Some (strip message)
  | None => None
  end.

Definition is_some {A} (x : option A) : bool :=
  match x with Some _ => true | None => false end.

(** An entry all of whose changes are answerable comments. *)
Definition all_answerable (entry : value) : bool :=
  match entry with
  | PyDict e =>
      match dict_get e "changes" (PyList []) with
      | PyList cs => forallb (fun c => is_some (answerable (dict_get e "id" PyNone) c)) cs
      | _ => false
      end
  | _ => false
  end.

(** The messages of the answerable comments of an entry, in order. *)
Definition entry_texts (entry : value) : list string :=
  match entry with
  | PyDict e =>
      match dict_get e "changes" (PyList []) with
      | PyList cs =>
          flat_map (fun c => match answerable (dict_get e "id" PyNone) c with
                             | Some text => [text]
                             | None => []
                             end) cs
      | _ => []
      end
  | _ => []
  end.

(** A run from [st] whose added calls are exchanges and whose [return],
    if any, is an acknowledgement. *)
Definition orderly {World A} (st : state World) (run : outcome A * state World) : Prop :=
  (exists more, calls (snd run) = (calls st ++ more)%list /\ exchanges more = true) /\
  match fst run with
  | Returned r => acknowledgement r = true
  | _ => True
  end.

Module Cases.

(** No page access token, and no model. *)
Definition cfg_no_token : config :=
  {| FB_VERIFY_TOKEN := Some "secreto";
     FB_PAGE_ACCESS_TOKEN := Some "";
     GEMINI_API_KEY := Some "clave";
     gemini_model := Some (Model "gemini-2.0-flash") |}.

Definition cfg_no_model : config :=
  {| FB_VERIFY_TOKEN := Some "secreto";
     FB_PAGE_ACCESS_TOKEN := Some "EAAB-token";
     GEMINI_API_KEY := None;
     gemini_model := None |}.

Definition greeting : value := Samples.comment "c_5" "Buenas tardes" "user_3".

(** U+D800, a lone surrogate, as the JSON escape [\ud800] gives it. *)
Definition lone : string := utf8 [237; 160; 128]%nat.

(** Deliveries that hold it: as the [object], in the message of the
    page's own comment, in the id of a blank comment, in the message of a
    question and in the sender id of a question. *)
Definition surrogate_object : request :=
  {| method := "POST"; args := []; get_json := PyDict [("object", PyStr lone)] |}.

Definition surrogate_user_object : request :=
  {| method := "POST"; args := [];
     get_json := PyDict [("object", PyStr ("user" ++ lone)); ("entry", PyList [])] |}.

Definition surrogate_own_comment : request :=
  Samples.delivery
    [PyDict (Samples.page_entry "page_1"
               [Samples.comment "c_2" ("Gracias " ++ lone) "page_1"; Samples.question])].

Definition surrogate_blank_comment : request :=
  Samples.delivery
    [PyDict (Samples.page_entry "page_1" [Samples.comment lone "   " "user_8"])].

Definition surrogate_question : request :=
  Samples.delivery
    [PyDict (Samples.page_entry "page_1"
               [Samples.comment "c_1" ("¿Hacen sitios web? " ++ lone) "user_7"])].

Definition surrogate_sender : request :=
  Samples.delivery
    [PyDict (Samples.page_entry "page_1"
               [Samples.comment "c_1" "¿Hacen sitios web?" (lone ++ "7")])].

(** A comment that names no sender. *)
Definition anonymous : value :=
  PyDict [("field", PyStr "feed");
          ("value", PyDict [("item", PyStr "comment");
                            ("comment_id", PyStr "c_6");
                            ("message", PyStr "Hola, ¿precios?")])].

(** A reaction on the feed, and a change of another field whose [value]
    is [null]. *)
Definition reaction : value :=
  PyDict [("field", PyStr "feed");
          ("value", PyDict [("item", PyStr "reaction"); ("reaction_type", PyStr "like")])].

Definition mention : value :=
  PyDict [("field", PyStr "mention"); ("value", PyNone)].

End Cases.

(** * Properties *)

(** ** Python equality against a string, and on optional strings *)

Lemma py_eq_str (v : value) (s : string) :
  py_eq v (PyStr s) = true <-> v = PyStr s.
Proof.
  destruct v as [| b | n | t | xs | d]; simpl; split; intro H;
    try discriminate; try (destruct xs; discriminate).
  - apply String.eqb_eq in H. now subst.
  - injection H as ->. apply String.eqb_refl.
Qed.

Lemma py_eq_str_false (v : value) (s : string) :
  py_eq v (PyStr s) = false <-> v <> PyStr s.
Proof.
  rewrite <- py_eq_str. destruct (py_eq v (PyStr s)); split; congruence.
Qed.

Lemma opt_eqb_eq (x y : option string) : opt_eqb x y = true <-> x = y.
Proof.
  destruct x as [s |], y as [t |]; simpl; split; intro H;
    try discriminate; try reflexivity.
  - apply String.eqb_eq in H. now subst.
  - injection H as ->. apply String.eqb_refl.
Qed.


Lemma dict_get_present (items : list (string * value)) (key : string) (v default : value) :
  lookup key items = Some v -> dict_get items key default = v.
Proof. unfold dict_get. now intros ->. Qed.

(** ** Printing *)

Lemma existsb_lit (text : string) (rest : list fpart) :
  has_surrogate text = false ->
  existsb part_unprintable (Lit text :: rest) = existsb part_unprintable rest.
Proof. intro H. simpl. now rewrite H. Qed.

Lemma bind_lift_inr {World A B} (a : A) (k : A -> M World B) (st : state World) :
  bind (lift (inr a)) k st = k a st.
Proof. reflexivity. Qed.

(** One step through a [lift] that does not raise. *)
Ltac lift_step := cbv beta; cbn [py_get py_strip]; rewrite bind_lift_inr; cbv beta.

(** A print of one value between two constant texts. *)
Lemma print_value {World} (before after : string) (v : value) (st : state World) :
  has_surrogate before = false ->
  has_surrogate after = false ->
  py_print [Lit before; Fmt v; Lit after] st =
  if unprintable v then (Raised UnicodeEncodeError, st) else (Normal tt, st).
Proof.
  intros Hb Ha. unfold py_print. rewrite existsb_lit by exact Hb. simpl.
  rewrite Ha. simpl. rewrite orb_false_r. destruct (unprintable v); reflexivity.
Qed.

Section Properties.

Context {World : Type}.
Variable generate_content : GenerativeModel -> string -> World -> gen_result * World.
Variable requests_post : list fpart -> list (string * string) -> World -> post_result * World.
Variable cfg : config.

Notation "'handler'" := (facebook_webhook_handler generate_content requests_post cfg).
Notation "'generator'" := (get_gemini_response generate_content cfg).
Notation "'poster'" := (post_facebook_reply requests_post cfg).
Notation "'on_change'" := (handle_change generate_content requests_post cfg).
Notation "'on_entry'" := (handle_entry generate_content requests_post cfg).

(** ** The verification handshake *)


(** C9: with no secret configured, a GET request without a verify-token
    passes the comparison ([None == None]) and the challenge is echoed
    with status 200. *)
Theorem handshake_without_secret (req : request) (st : state World) (challenge : string) :
  FB_VERIFY_TOKEN cfg = None ->
  method req = "GET" ->
  args_get "hub.verify_token" (args req) = None ->
  args_get "hub.challenge" (args req) = Some challenge ->
  handler req st = (Normal {| body := challenge; status := 200 |}, st).
Proof.
  intros Hs Hm Ht Hc.
  unfold facebook_webhook_handler, call_view, bind, make_response, return_, ret.
  rewrite Hm, Ht, Hs, Hc. reflexivity.
Qed.

(** X3: a GET request with the right token and no challenge gets no
    response from the handler: Flask's [make_response] refuses the [None]
    body with a [TypeError], and the state is left as it was. *)
Lemma handshake_without_challenge (req : request) (st : state World) :
  method req = "GET" ->
  args_get "hub.verify_token" (args req) = FB_VERIFY_TOKEN cfg ->
  args_get "hub.challenge" (args req) = None ->
  handler req st = (Raised TypeError, st).
Proof.
  intros Hm Ht Hc.
  unfold facebook_webhook_handler, call_view, bind, make_response, return_, raise.
  apply opt_eqb_eq in Ht. rewrite Hm, Ht, Hc. reflexivity.
Qed.

(** ** Deliveries that are not about a page *)

(** The print of line 167. *)
Lemma print_object (object : value) (st : state World) :
  py_print [Lit "DEBUG: Objeto de la solicitud POST no es 'page': "; Fmt object] st =
  if unprintable object then (Raised UnicodeEncodeError, st) else (Normal tt, st).
Proof.
  unfold py_print. rewrite existsb_lit by reflexivity. simpl.
  rewrite orb_false_r. destruct (unprintable object); reflexivity.
Qed.

(** A POST whose [object] is not "page" ends with the print of line 167. *)
Lemma handler_other_object (req : request) (st : state World) (d : list (string * value)) :
  method req = "POST" ->
  get_json req = PyDict d ->
  dict_get d "object" PyNone <> PyStr "page" ->
  handler req st =
    if unprintable (dict_get d "object" PyNone)
    then (Raised UnicodeEncodeError, st)
    else (Normal {| body := "EVENT_RECEIVED"; status := 200 |}, st).
Proof.
  intros Hm Hd Ho. apply py_eq_str_false in Ho.
  unfold facebook_webhook_handler. rewrite Hm, Hd.
  change (String.eqb "POST" "GET") with false. change (String.eqb "POST" "POST") with true.
  cbv iota. unfold call_view. cbn [py_get]. rewrite bind_lift_inr, Ho.
  unfold bind at 1. rewrite print_object.
  destruct (unprintable (dict_get d "object" PyNone)); reflexivity.
Qed.

(** X19: a POST whose body is an object with [object] other than "page"
    (or without it), which can be printed, is answered 200
    "EVENT_RECEIVED"; the state, hence the list of calls, is unchanged. *)
Theorem other_object_acknowledged (req : request) (st : state World)
  (d : list (string * value)) :
  method req = "POST" ->
  get_json req = PyDict d ->
  dict_get d "object" PyNone <> PyStr "page" ->
  unprintable (dict_get d "object" PyNone) = false ->
  handler req st = (Normal {| body := "EVENT_RECEIVED"; status := 200 |}, st).
Proof.
  intros Hm Hd Ho Hp. rewrite (handler_other_object req st d Hm Hd Ho), Hp. reflexivity.
Qed.

(** ** The reply generator *)

(** What [get_gemini_response] returns, and the call it records. *)
Lemma generator_result (text page_name page_description : string) (st : state World) :
  exists reply st',
    generator text page_name page_description st = (Normal reply, st') /\
    calls st' = (calls st ++ [GeneratorCall text page_name page_description])%list /\
    world st' =
      match gemini_model cfg with
      | None => world st
      | Some m => snd (generate_content m (prompt text) (world st))
      end /\
    match gemini_model cfg with
    | None => reply = fallback_no_model
    | Some m =>
        match fst (generate_content m (prompt text) (world st)) with
        | GenText generated => reply = generated
        | GenRaises => reply = fallback_exception
        end
    end.
Proof.
  unfold get_gemini_response, bind, record_call, ask_gemini, ret.
  destruct (gemini_model cfg) as [m |]; simpl.
  - destruct (generate_content m (prompt text) (world st)) as [[generated |] w]; simpl;
      eexists _, _; repeat split; reflexivity.
  - eexists _, _; repeat split; reflexivity.
Qed.

(** C7: [get_gemini_response] always returns a string: the generated
    text when the service answers, one fixed apology when there is no
    model, another when the call raises; it never raises or returns
    early itself. *)
Theorem generator_never_raises (text page_name page_description : string)
  (st : state World) :
  exists reply st',
    generator text page_name page_description st = (Normal reply, st') /\
    match gemini_model cfg with
    | None => reply = fallback_no_model
    | Some m =>
        match fst (generate_content m (prompt text) (world st)) with
        | GenText generated => reply = generated
        | GenRaises => reply = fallback_exception
        end
    end.
Proof.
  destruct (generator_result text page_name page_description st)
    as (reply & st' & Hrun & _ & _ & Hreply).
  now exists reply, st'.
Qed.

(** ** The loops *)

Lemma for_each_app {A} (body : A -> M World unit) (xs ys : list A) (st : state World) :
  for_each body (xs ++ ys) st =
  match for_each body xs st with
  | (Normal _, st1) => for_each body ys st1
  | other => other
  end.
Proof.
  revert st. induction xs as [| x xs IH]; intro st; simpl.
  - reflexivity.
  - unfold bind. destruct (body x st) as [[[] | r | e] st1]; [apply IH | reflexivity ..].
Qed.

(** The print of line 129. *)
Lemma print_event (comment_id sender_id : value) (user_message : string) (st : state World) :
  py_print [Lit "DEBUG: Nuevo comentario detectado. ID: "; Fmt comment_id;
            Lit ", Remitente: "; Fmt sender_id;
            Lit ", Mensaje: '"; Fmt (PyStr user_message); Lit "'"] st =
  if unprintable comment_id || unprintable sender_id || has_surrogate user_message
  then (Raised UnicodeEncodeError, st) else (Normal tt, st).
Proof.
  unfold py_print. rewrite existsb_lit by reflexivity. simpl.
  rewrite !orb_false_r.
  destruct (unprintable comment_id), (unprintable sender_id), (has_surrogate user_message);
    reflexivity.
Qed.

Lemma loggable_false (comment_id sender_id : value) (message : string) :
  unprintable comment_id || unprintable sender_id || has_surrogate (strip message) =
  negb (loggable (comment_id, message, sender_id)).
Proof.
  unfold loggable.
  destruct (unprintable comment_id), (unprintable sender_id), (has_surrogate (strip message));
    reflexivity.
Qed.

(** What the loop body does with a comment event. *)
Lemma on_change_comment_event (page_id change comment_id sender_id : value)
  (message : string) (st : state World) :
  comment_event change = Some (comment_id, message, sender_id) ->
  on_change page_id change st =
  if negb (loggable (comment_id, message, sender_id)) then (Raised UnicodeEncodeError, st)
  else
    (if py_eq sender_id page_id then
       return_ {| body := "EVENT_RECEIVED_FROM_PAGE_ITSELF"; status := 200 |}
     else if String.eqb (strip message) "" then
       return_ {| body := "EVENT_RECEIVED_EMPTY_COMMENT"; status := 200 |}
     else
       ai_response <- generator (strip message) "Tu Página de FB" "asistente virtual" ;;
       py_print [Lit "DEBUG: Respuesta generada por Gemini: '"; Fmt (PyStr ai_response);
                 Lit "'"] ;;;
       if negb (String.eqb ai_response "") then
         success <- poster comment_id ai_response ;; ret tt
       else ret tt) st.
Proof.
  unfold comment_event. intro H.
  destruct change as [| | | | | c]; try discriminate.
  destruct (py_eq (dict_get c "field" PyNone) (PyStr "feed")) eqn:Ef; try discriminate.
  destruct (dict_get c "value" (PyDict [])) as [| | | | | v] eqn:Ev; try discriminate.
  destruct (py_eq (dict_get v "item" PyNone) (PyStr "comment")) eqn:Ei; try discriminate.
  destruct (dict_get v "message" (PyStr "")) as [| | | m | |] eqn:Em; try discriminate.
  destruct (dict_get v "from" (PyDict [])) as [| | | | | f] eqn:Efrom; try discriminate.
  injection H as <- <- <-.
  unfold handle_change.
  lift_step. rewrite Ef, Ev. lift_step. lift_step. rewrite Ei. lift_step.
  rewrite Em. lift_step. lift_step. rewrite Efrom. lift_step. lift_step.
  unfold bind at 1. rewrite print_event, loggable_false.
  destruct (loggable (dict_get v "comment_id" PyNone, m, dict_get f "id" PyNone)) eqn:Hlog;
    [| reflexivity].
  cbn [negb].
  destruct (py_eq (dict_get f "id" PyNone) page_id); [reflexivity |].
  destruct (String.eqb (strip m) ""); [reflexivity |].
  unfold bind at 1. rewrite print_value by reflexivity. cbn [unprintable].
  assert (Hm : has_surrogate (strip m) = false).
  { unfold loggable in Hlog. apply andb_true_iff in Hlog as [_ Hlog].
    now destruct (has_surrogate (strip m)). }
  rewrite Hm. reflexivity.
Qed.

(** An entry with a list of changes runs the inner loop over them. *)
Lemma on_entry_dict (e : list (string * value)) (cs : list value) (st : state World) :
  dict_get e "changes" (PyList []) = PyList cs ->
  on_entry (PyDict e) st = for_each (on_change (dict_get e "id" PyNone)) cs st.
Proof.
  intro Hc. unfold handle_entry, bind, lift, py_get, ret. rewrite Hc. reflexivity.
Qed.

(** A delivery for a page with a list of entries runs the outer loop over
    them and then acknowledges. *)
Lemma handler_page (req : request) (d : list (string * value)) (es : list value)
  (st : state World) :
  method req = "POST" ->
  get_json req = PyDict d ->
  dict_get d "object" PyNone = PyStr "page" ->
  dict_get d "entry" (PyList []) = PyList es ->
  handler req st =
  call_view
    (for_each on_entry es ;;;
     r <- make_response (Some "EVENT_RECEIVED") 200 ;; return_ r) st.
Proof.
  intros Hm Hd Ho He.
  unfold facebook_webhook_handler. rewrite Hm, Hd.
  unfold call_view, bind, lift, py_get. rewrite Ho, He. reflexivity.
Qed.

(** A delivery whose earlier entries and changes ran to their end goes
    on with the change at hand, then the later changes and entries. *)
Lemma handler_at (req : request) (es1 : list value) (e : list (string * value))
  (cs1 : list value) (change : value) (cs2 es2 : list value) (st st' : state World) :
  delivery_at req es1 e cs1 change cs2 es2 ->
  prefix_done generate_content requests_post cfg es1 e cs1 st st' ->
  handler req st =
  call_view
    (on_change (dict_get e "id" PyNone) change ;;;
     for_each (on_change (dict_get e "id" PyNone)) cs2 ;;;
     for_each on_entry es2 ;;;
     r <- make_response (Some "EVENT_RECEIVED") 200 ;; return_ r) st'.
Proof.
  intros (Hm & d & Hd & Ho & He & Hc) (st1 & H1 & H2).
  rewrite (handler_page req d _ st Hm Hd
             (dict_get_present _ _ _ _ Ho) (dict_get_present _ _ _ _ He)).
  unfold call_view, bind.
  rewrite for_each_app, H1. cbn [for_each]. unfold bind.
  rewrite (on_entry_dict e _ st1 (dict_get_present _ _ _ _ Hc)), for_each_app, H2. cbn [for_each]. unfold bind.
  destruct (on_change (dict_get e "id" PyNone) change st') as [[[] | r | x] st2];
    try reflexivity.
  destruct (for_each (on_change (dict_get e "id" PyNone)) cs2 st2) as [[[] | r | x] st3];
    reflexivity.
Qed.

(** ** The two guards *)

(** X16: when the loops reach a comment event that can be logged and
    whose sender id equals the id of its entry, the handler answers 200 at
    once.  The final state is the one in which the event was reached:
    neither collaborator is called for it, and the later changes [cs2] and
    entries [es2], whatever they are, have no part in the result. *)
Theorem self_reply_short_circuits (req : request) (es1 : list value)
  (e : list (string * value)) (cs1 : list value) (change : value)
  (cs2 es2 : list value) (st st' : state World)
  (comment_id sender_id : value) (message : string) :
  delivery_at req es1 e cs1 change cs2 es2 ->
  prefix_done generate_content requests_post cfg es1 e cs1 st st' ->
  comment_event change = Some (comment_id, message, sender_id) ->
  loggable (comment_id, message, sender_id) = true ->
  py_eq sender_id (dict_get e "id" PyNone) = true ->
  handler req st =
    (Normal {| body := "EVENT_RECEIVED_FROM_PAGE_ITSELF"; status := 200 |}, st').
Proof.
  intros Hat Hpre Hev Hlog Hself.
  rewrite (handler_at _ _ _ _ _ _ _ _ _ Hat Hpre).
  unfold call_view, bind.
  rewrite (on_change_comment_event _ _ _ _ _ _ Hev), Hlog, Hself. reflexivity.
Qed.

(** X18: when the loops reach a comment event that can be logged and
    whose message is empty once stripped, the handler answers 200 at once,
    with the same scope as the self-reply guard (which is tested first and
    gives the body when both apply): the final state is the one in which
    the event was reached, and [cs2] and [es2] have no part in the result. *)
Theorem empty_comment_short_circuits (req : request) (es1 : list value)
  (e : list (string * value)) (cs1 : list value) (change : value)
  (cs2 es2 : list value) (st st' : state World)
  (comment_id sender_id : value) (message : string) :
  delivery_at req es1 e cs1 change cs2 es2 ->
  prefix_done generate_content requests_post cfg es1 e cs1 st st' ->
  comment_event change = Some (comment_id, message, sender_id) ->
  loggable (comment_id, message, sender_id) = true ->
  strip message = "" ->
  handler req st =
    (Normal {| body := if py_eq sender_id (dict_get e "id" PyNone)
                       then "EVENT_RECEIVED_FROM_PAGE_ITSELF"
                       else "EVENT_RECEIVED_EMPTY_COMMENT";
               status := 200 |}, st').
Proof.
  intros Hat Hpre Hev Hlog Hempty.
  rewrite (handler_at _ _ _ _ _ _ _ _ _ Hat Hpre).
  unfold call_view, bind.
  rewrite (on_change_comment_event _ _ _ _ _ _ Hev), Hlog, Hempty.
  destruct (py_eq sender_id (dict_get e "id" PyNone)); reflexivity.
Qed.

(** ** Replying *)

(** [post_facebook_reply] records its call, and returns a boolean or
    raises. *)
Lemma poster_outcome (comment_id : value) (message : string) (st : state World) :
  exists o st',
    poster comment_id message st = (o, st') /\
    calls st' = (calls st ++ [PosterCall comment_id message])%list /\
    match o with Returned _ => False | _ => True end.
Proof.
  unfold post_facebook_reply, bind, record_call, ask_requests_post, ret, raise.
  destruct (FB_PAGE_ACCESS_TOKEN cfg) as [token |]; simpl.
  - destruct (String.eqb token ""); simpl.
    + eexists _, _; repeat split.
    + destruct (has_surrogate message || (has_surrogate token || false)); simpl.
      * eexists _, _; repeat split.
      * match goal with
        | |- context [requests_post ?u ?p ?w] =>
            destruct (requests_post u p w) as [[| text | x] w']
        end; simpl; eexists _, _; repeat split.
  - eexists _, _; repeat split.
Qed.

(** With well-behaved surroundings and a message that can be encoded, it
    returns. *)
Lemma poster_returns (comment_id : value) (message : string) (st : state World) :
  well_behaved generate_content requests_post cfg ->
  has_surrogate message = false ->
  exists ok st',
    poster comment_id message st = (Normal ok, st') /\
    calls st' = (calls st ++ [PosterCall comment_id message])%list.
Proof.
  intros (_ & Hpost & Htoken) Hmsg.
  unfold post_facebook_reply, bind, record_call, ask_requests_post, ret, raise.
  destruct (FB_PAGE_ACCESS_TOKEN cfg) as [token |]; simpl.
  - destruct (String.eqb token ""); simpl.
    + eexists _, _; split; reflexivity.
    + rewrite Hmsg, Htoken. simpl.
      match goal with
      | |- context [requests_post ?u ?p ?w] =>
          pose proof (Hpost u p w) as Hne;
          destruct (requests_post u p w) as [[| text | x] w']
      end; simpl in *.
      * eexists _, _; split; reflexivity.
      * eexists _, _; split; reflexivity.
      * exfalso. now apply (Hne x).
  - eexists _, _; split; reflexivity.
Qed.

(** With well-behaved surroundings the reply of the generator can be
    printed. *)
Lemma generator_printable (text page_name page_description reply : string)
  (st st' : state World) :
  well_behaved generate_content requests_post cfg ->
  generator text page_name page_description st = (Normal reply, st') ->
  has_surrogate reply = false.
Proof.
  intros (Hgen & _ & _) Hrun.
  destruct (generator_result text page_name page_description st)
    as (reply' & st0 & Hrun' & _ & _ & Hreply).
  rewrite Hrun in Hrun'. injection Hrun' as <- <-.
  destruct (gemini_model cfg) as [m |]; [| now subst reply].
  pose proof (Hgen m (prompt text) (world st)) as Hg.
  destruct (fst (generate_content m (prompt text) (world st))) as [generated |].
  - subst reply. now apply Hg.
  - now subst reply.
Qed.

(** The step taken for a comment event that is logged and passes both
    guards, the surroundings being well-behaved. *)
Lemma reply_step (page_id change comment_id sender_id : value) (message : string)
  (st : state World) :
  well_behaved generate_content requests_post cfg ->
  comment_event change = Some (comment_id, message, sender_id) ->
  loggable (comment_id, message, sender_id) = true ->
  py_eq sender_id page_id = false ->
  strip message <> "" ->
  exists ai_response st_g st_p,
    generator (strip message) "Tu Página de FB" "asistente virtual" st
      = (Normal ai_response, st_g) /\
    calls st_g =
      (calls st ++ [GeneratorCall (strip message) "Tu Página de FB" "asistente virtual"])%list /\
    on_change page_id change st = (Normal tt, st_p) /\
    calls st_p =
      (calls st_g ++
       if String.eqb ai_response "" then [] else [PosterCall comment_id ai_response])%list.
Proof.
  intros Hwb Hev Hlog Hother Hmsg.
  rewrite (on_change_comment_event _ _ _ _ _ _ Hev), Hlog, Hother. cbn [negb].
  apply String.eqb_neq in Hmsg. rewrite Hmsg.
  destruct (generator_result (strip message) "Tu Página de FB" "asistente virtual" st)
    as (ai & st_g & Hg & Hcalls & _).
  pose proof (generator_printable _ _ _ _ _ _ Hwb Hg) as Hai.
  exists ai, st_g. unfold bind at 1. rewrite Hg.
  unfold bind at 1. rewrite print_value by reflexivity. cbn [unprintable]. rewrite Hai.
  destruct (String.eqb ai "") eqn:Eai; simpl.
  - exists st_g. repeat split; auto. now rewrite app_nil_r.
  - destruct (poster_returns comment_id ai st_g Hwb Hai) as (ok & st_p & Hp & Hpc).
    exists st_p. unfold bind. rewrite Hp. repeat split; auto.
Qed.

(** ** Well-formed deliveries *)

Lemma acknowledging_skip (st : state World) : acknowledging st (Normal tt, st).
Proof.
  split; [exists []; simpl; now rewrite app_nil_r | exact I].
Qed.

Lemma acknowledging_bind {A B} (m : M World A) (k : A -> M World B) (st : state World) :
  acknowledging st (m st) ->
  (forall a st1, acknowledging st1 (k a st1)) ->
  acknowledging st (bind m k st).
Proof.
  unfold acknowledging, bind. intros [[l1 H1] Hm] Hk.
  destruct (m st) as [[a | r | x] st1]; simpl in *.
  - destruct (Hk a st1) as [[l2 H2] Hr]. split; [| exact Hr].
    exists (l1 ++ l2)%list. now rewrite H2, H1, app_assoc.
  - split; [now exists l1 | exact Hm].
  - contradiction.
Qed.

Lemma acknowledging_for_each {A} (body : A -> M World unit) (xs : list A) :
  (forall x, In x xs -> forall st, acknowledging st (body x st)) ->
  forall st, acknowledging st (for_each body xs st).
Proof.
  induction xs as [| x xs IH]; intros Hbody st; simpl.
  - apply acknowledging_skip.
  - apply acknowledging_bind.
    + apply Hbody. now left.
    + intros _ st1. apply IH. intros y Hy. apply Hbody. now right.
Qed.

(** A comment event that can be logged never makes the handler raise,
    the surroundings being well-behaved. *)
Lemma acknowledging_comment_event (page_id change : value)
  (ev : value * string * value) (st : state World) :
  well_behaved generate_content requests_post cfg ->
  comment_event change = Some ev ->
  loggable ev = true ->
  acknowledging st (on_change page_id change st).
Proof.
  destruct ev as [[comment_id message] sender_id]. intros Hwb Hev Hlog.
  destruct (py_eq sender_id page_id) eqn:Eself.
  - rewrite (on_change_comment_event _ _ _ _ _ _ Hev), Hlog, Eself.
    split; [exists []; simpl; now rewrite app_nil_r | reflexivity].
  - destruct (String.eqb (strip message) "") eqn:Eempty.
    + rewrite (on_change_comment_event _ _ _ _ _ _ Hev), Hlog, Eself, Eempty.
      split; [exists []; simpl; now rewrite app_nil_r | reflexivity].
    + apply String.eqb_neq in Eempty.
      destruct (reply_step page_id change comment_id sender_id message st
                  Hwb Hev Hlog Eself Eempty)
        as (ai & st_g & st_p & _ & Hg & Hrun & Hp).
      rewrite Hrun. split; [| exact I]. simpl.
      eexists. rewrite Hp, Hg, <- app_assoc. reflexivity.
Qed.

(** A change of the expected shape whose fields can be printed is a
    comment event that can be logged, or is skipped. *)
Lemma change_shape_cases (change : value) :
  change_shape change = true ->
  change_prints change = true ->
  (exists ev, comment_event change = Some ev /\ loggable ev = true) \/
  (forall page_id st, on_change page_id change st = (Normal tt, st)).
Proof.
  unfold change_shape, dict_with, change_prints, comment_event, handle_change.
  destruct change as [| | | | | c]; try discriminate.
  unfold optional. intros Hshape Hprints.
  destruct (py_eq (dict_get c "field" PyNone) (PyStr "feed")) eqn:Ef;
    [| right; intros page_id st; lift_step; now rewrite Ef].
  assert (Hv : exists v, dict_get c "value" (PyDict []) = PyDict v /\
                         optional is_str "message" v && optional is_dict "from" v = true).
  { unfold dict_get. destruct (lookup "value" c) as [v |].
    - unfold value_shape, dict_with in Hshape.
      destruct v as [| | | | | v]; try discriminate. now exists v.
    - now exists []. }
  destruct Hv as (v & Hv & Hfields). rewrite Hv in *.
  unfold value_prints in Hprints.
  apply andb_true_iff in Hprints as [Hprints Hfrom].
  apply andb_true_iff in Hprints as [Hprints Hmsg].
  apply andb_true_iff in Hprints as [Hitem Hcid].
  destruct (py_eq (dict_get v "item" PyNone) (PyStr "comment")) eqn:Ei.
  - left. apply andb_true_iff in Hfields as [Hm Hf]. unfold optional, dict_get in *.
    destruct (lookup "message" v) as [[| | | m | |] |]; try discriminate;
      destruct (lookup "from" v) as [[| | | | | f] |]; try discriminate;
      eexists; (split; [reflexivity |]); unfold loggable;
      rewrite Hcid, Hfrom, Hmsg; reflexivity.
  - right. intros page_id st. lift_step. rewrite Ef, Hv. lift_step. lift_step.
    rewrite Ei, print_value by reflexivity.
    now destruct (unprintable (dict_get v "item" PyNone)).
Qed.

Lemma acknowledging_change (page_id change : value) (st : state World) :
  well_behaved generate_content requests_post cfg ->
  change_shape change = true ->
  change_prints change = true ->
  acknowledging st (on_change page_id change st).
Proof.
  intros Hwb Hshape Hprints.
  destruct (change_shape_cases change Hshape Hprints) as [(ev & Hev & Hlog) | Hskip].
  - now apply acknowledging_comment_event with ev.
  - rewrite Hskip. apply acknowledging_skip.
Qed.

Lemma acknowledging_changes (page_id : value) (cs : list value) (st : state World) :
  well_behaved generate_content requests_post cfg ->
  forallb change_shape cs = true ->
  forallb change_prints cs = true ->
  acknowledging st (for_each (on_change page_id) cs st).
Proof.
  intros Hwb Hshape Hprints. apply acknowledging_for_each. intros c Hc st1.
  rewrite forallb_forall in Hshape, Hprints.
  apply acknowledging_change; [exact Hwb | now apply Hshape | now apply Hprints].
Qed.

Lemma acknowledging_entry (entry : value) (st : state World) :
  well_behaved generate_content requests_post cfg ->
  entry_shape entry = true ->
  entry_prints entry = true ->
  acknowledging st (on_entry entry st).
Proof.
  unfold entry_shape, dict_with, optional, entry_prints.
  destruct entry as [| | | | | e]; try discriminate. intros Hwb Hshape Hprints.
  assert (Hcs : exists cs, dict_get e "changes" (PyList []) = PyList cs /\
                           forallb change_shape cs = true).
  { unfold dict_get. destruct (lookup "changes" e) as [[| | | | cs |] |]; try discriminate.
    - now exists cs.
    - now exists []. }
  destruct Hcs as (cs & Hcs & Hall). rewrite Hcs in Hprints.
  rewrite (on_entry_dict e cs st Hcs).
  now apply acknowledging_changes.
Qed.

Lemma acknowledging_entries (es : list value) (st : state World) :
  well_behaved generate_content requests_post cfg ->
  forallb entry_shape es = true ->
  forallb entry_prints es = true ->
  acknowledging st (for_each on_entry es st).
Proof.
  intros Hwb Hshape Hprints. apply acknowledging_for_each. intros x Hx st1.
  rewrite forallb_forall in Hshape, Hprints.
  apply acknowledging_entry; [exact Hwb | now apply Hshape | now apply Hprints].
Qed.

(** Statements that never raise end in the final acknowledgement, or in
    the 200 they returned earlier. *)
Lemma acknowledged_after (m : M World unit) (st : state World) :
  acknowledging st (m st) ->
  exists r st_f more,
    call_view (m ;;; r <- make_response (Some "EVENT_RECEIVED") 200 ;; return_ r) st
      = (Normal r, st_f) /\
    status r = 200 /\
    calls st_f = (calls st ++ more)%list.
Proof.
  unfold acknowledging, call_view, bind. intros [[more Hmore] Hm].
  destruct (m st) as [[[] | r | x] st1]; simpl in *.
  - now exists {| body := "EVENT_RECEIVED"; status := 200 |}, st1, more.
  - now exists r, st1, more.
  - contradiction.
Qed.

(** X15: a POST whose body has the shape of a notification payload and
    whose logged fields can be printed is answered with status 200, for
    every well-behaved generative service and Graph API (whatever they
    answer, failures included) and whichever guard applies. *)
Theorem well_formed_delivery_acknowledged (req : request) (st : state World) :
  well_behaved generate_content requests_post cfg ->
  method req = "POST" ->
  notification_payload (get_json req) = true ->
  payload_prints (get_json req) = true ->
  exists r st', handler req st = (Normal r, st') /\ status r = 200.
Proof.
  intros Hwb Hm Hshape Hprints.
  unfold notification_payload, dict_with in Hshape. unfold payload_prints in Hprints.
  destruct (get_json req) as [| | | | | d] eqn:Hd; try discriminate.
  apply andb_true_iff in Hprints as [Hobject Hprints].
  destruct (py_eq (dict_get d "object" PyNone) (PyStr "page")) eqn:Ho.
  - apply py_eq_str in Ho.
    assert (Hes : exists es, dict_get d "entry" (PyList []) = PyList es /\
                             forallb entry_shape es = true).
    { unfold optional in Hshape. unfold dict_get.
      destruct (lookup "entry" d) as [[| | | | es |] |]; try discriminate.
      - now exists es.
      - now exists []. }
    destruct Hes as (es & Hes & Hall). rewrite Hes in Hprints.
    rewrite (handler_page req d es st Hm Hd Ho Hes).
    destruct (acknowledged_after (for_each on_entry es) st) as (r & st' & _ & Hrun & Hr & _).
    + now apply acknowledging_entries.
    + now exists r, st'.
  - exists {| body := "EVENT_RECEIVED"; status := 200 |}, st. split; [| reflexivity].
    apply py_eq_str_false in Ho.
    rewrite (handler_other_object req st d Hm Hd Ho).
    now destruct (unprintable (dict_get d "object" PyNone)).
Qed.

(** ** Answering a comment *)

Lemma bind_assoc {A B C} (m : M World A) (k : A -> M World B) (h : B -> M World C)
  (st : state World) :
  bind (bind m k) h st = bind m (fun a => bind (k a) h) st.
Proof.
  unfold bind. destruct (m st) as [[a | r | x] st1]; reflexivity.
Qed.

(** Once the change at hand is dealt with, a well-formed rest of the
    delivery ends in a 200. *)
Lemma acknowledged_after_change (req : request) (es1 : list value)
  (e : list (string * value)) (cs1 : list value) (change : value)
  (cs2 es2 : list value) (st st' st_p : state World) :
  well_behaved generate_content requests_post cfg ->
  delivery_at req es1 e cs1 change cs2 es2 ->
  prefix_done generate_content requests_post cfg es1 e cs1 st st' ->
  on_change (dict_get e "id" PyNone) change st' = (Normal tt, st_p) ->
  forallb change_shape cs2 = true ->
  forallb change_prints cs2 = true ->
  forallb entry_shape es2 = true ->
  forallb entry_prints es2 = true ->
  exists r st_f more,
    handler req st = (Normal r, st_f) /\
    status r = 200 /\
    calls st_f = (calls st_p ++ more)%list.
Proof.
  intros Hwb Hat Hpre Hrun Hcs Hcp Hes Hep.
  rewrite (handler_at _ _ _ _ _ _ _ _ _ Hat Hpre).
  destruct (acknowledged_after
              (for_each (on_change (dict_get e "id" PyNone)) cs2 ;;; for_each on_entry es2)
              st_p) as (r & st_f & more & Hfin & Hr & Hcalls).
  - apply acknowledging_bind.
    + now apply acknowledging_changes.
    + intros _ st1. now apply acknowledging_entries.
  - exists r, st_f, more. repeat split; auto.
    rewrite <- Hfin. unfold call_view.
    rewrite bind_assoc. unfold bind at 1. rewrite Hrun. reflexivity.
Qed.

(** X17: when the loops reach a comment event that can be logged, from
    someone other than the page and with a message that is not empty once
    stripped, the handler calls the reply generator with the stripped
    message; when the reply [ai_response] is not empty, the next call is to
    the poster, with the comment's id and that reply; and, the rest of the
    delivery being well-formed, the answer has status 200 whether the
    Graph API accepts the reply or fails with a [RequestException]. *)
Theorem comment_answered (req : request) (es1 : list value)
  (e : list (string * value)) (cs1 : list value) (change : value)
  (cs2 es2 : list value) (st st' : state World)
  (comment_id sender_id : value) (message : string) :
  well_behaved generate_content requests_post cfg ->
  delivery_at req es1 e cs1 change cs2 es2 ->
  prefix_done generate_content requests_post cfg es1 e cs1 st st' ->
  comment_event change = Some (comment_id, message, sender_id) ->
  loggable (comment_id, message, sender_id) = true ->
  py_eq sender_id (dict_get e "id" PyNone) = false ->
  strip message <> "" ->
  forallb change_shape cs2 = true ->
  forallb change_prints cs2 = true ->
  forallb entry_shape es2 = true ->
  forallb entry_prints es2 = true ->
  exists ai_response st_g r st_f more,
    generator (strip message) "Tu Página de FB" "asistente virtual" st'
      = (Normal ai_response, st_g) /\
    handler req st = (Normal r, st_f) /\
    status r = 200 /\
    calls st_f =
      (calls st' ++
       [GeneratorCall (strip message) "Tu Página de FB" "asistente virtual"] ++
       (if String.eqb ai_response "" then [] else [PosterCall comment_id ai_response]) ++
       more)%list.
Proof.
  intros Hwb Hat Hpre Hev Hlog Hother Hmsg Hcs Hcp Hes Hep.
  destruct (reply_step _ _ _ _ _ st' Hwb Hev Hlog Hother Hmsg)
    as (ai & st_g & st_p & Hg & Hgc & Hrun & Hpc).
  destruct (acknowledged_after_change _ _ _ _ _ _ _ _ _ _ Hwb Hat Hpre Hrun Hcs Hcp Hes Hep)
    as (r & st_f & more & Hfin & Hr & Hfc).
  exists ai, st_g, r, st_f, more. repeat split; auto.
  rewrite Hfc, Hpc, Hgc, <- !app_assoc. reflexivity.
Qed.

(** X20: in the situation of X17, when the generative service gives no
    text (there is no model, or the call raises), the reply is one of the
    two fixed apologies; neither is empty, so the poster is called with
    the comment's id and the apology. *)
Theorem apology_is_posted (req : request) (es1 : list value)
  (e : list (string * value)) (cs1 : list value) (change : value)
  (cs2 es2 : list value) (st st' : state World)
  (comment_id sender_id : value) (message : string) :
  well_behaved generate_content requests_post cfg ->
  delivery_at req es1 e cs1 change cs2 es2 ->
  prefix_done generate_content requests_post cfg es1 e cs1 st st' ->
  comment_event change = Some (comment_id, message, sender_id) ->
  loggable (comment_id, message, sender_id) = true ->
  py_eq sender_id (dict_get e "id" PyNone) = false ->
  strip message <> "" ->
  forallb change_shape cs2 = true ->
  forallb change_prints cs2 = true ->
  forallb entry_shape es2 = true ->
  forallb entry_prints es2 = true ->
  service_fails generate_content cfg (strip message) st' ->
  exists apology r st_f more,
    (apology = fallback_no_model \/ apology = fallback_exception) /\
    apology <> "" /\
    handler req st = (Normal r, st_f) /\
    status r = 200 /\
    calls st_f =
      (calls st' ++
       [GeneratorCall (strip message) "Tu Página de FB" "asistente virtual";
        PosterCall comment_id apology] ++
       more)%list.
Proof.
  intros Hwb Hat Hpre Hev Hlog Hother Hmsg Hcs Hcp Hes Hep Hfail.
  destruct (reply_step _ _ _ _ _ st' Hwb Hev Hlog Hother Hmsg)
    as (ai & st_g & st_p & Hg & Hgc & Hrun & Hpc).
  destruct (acknowledged_after_change _ _ _ _ _ _ _ _ _ _ Hwb Hat Hpre Hrun Hcs Hcp Hes Hep)
    as (r & st_f & more & Hfin & Hr & Hfc).
  destruct (generator_result (strip message) "Tu Página de FB" "asistente virtual" st')
    as (ai' & st_g' & Hg' & _ & _ & Hreply).
  rewrite Hg in Hg'. injection Hg' as <- <-.
  assert (Hai : ai = fallback_no_model \/ ai = fallback_exception).
  { unfold service_fails in Hfail. destruct (gemini_model cfg) as [m |].
    - rewrite Hfail in Hreply. now right.
    - now left. }
  assert (Hne : String.eqb ai "" = false) by (destruct Hai as [-> | ->]; reflexivity).
  exists ai, r, st_f, more. repeat split; auto.
  - now apply String.eqb_neq.
  - rewrite Hfc, Hpc, Hgc, Hne, <- !app_assoc. reflexivity.
Qed.

(** ** Payloads of another shape *)

(** C8: a comment whose [message] is present and [null] is not
    defaulted: [None.strip()] raises [AttributeError], for every
    configuration and every behaviour of the two services, and the request
    ends without a response of the handler. *)
Theorem null_message_raises (st : state World) :
  handler (Samples.delivery [PyDict (Samples.page_entry "page_1" [Samples.null_message])]) st
  = (Raised AttributeError, st).
Proof. reflexivity. Qed.

(** So does an [entry] that is present and [null]: it cannot be iterated. *)
Lemma null_entry_raises (st : state World) :
  handler {| method := "POST"; args := [];
             get_json := PyDict [("object", PyStr "page"); ("entry", PyNone)] |} st
  = (Raised TypeError, st).
Proof. reflexivity. Qed.

(** And a body that is not an object has no [get]. *)
Lemma list_body_raises (xs : list value) (st : state World) :
  handler {| method := "POST"; args := []; get_json := PyList xs |} st
  = (Raised AttributeError, st).
Proof. reflexivity. Qed.

(** ** Lone surrogates in a payload

    The text of a debug [print] that holds a lone surrogate cannot be
    encoded: the print raises [UnicodeEncodeError], nothing catches it, and
    the request ends without the 200 that lines 169-171 promise even for an
    internal error.  This holds for every configuration and every
    behaviour of the two services. *)

(** C1: the body [{"object": "\ud800"}] has the shape of a notification
    payload, and its delivery is not acknowledged: the print of line 167
    raises. *)
Theorem surrogate_object_not_acknowledged (st : state World) :
  notification_payload (get_json Cases.surrogate_object) = true /\
  handler Cases.surrogate_object st = (Raised UnicodeEncodeError, st).
Proof. split; reflexivity. Qed.

(** C6: a body whose [object] is another string than "page", holding a
    lone surrogate, is not acknowledged: the print of line 167 raises. *)
Theorem surrogate_user_object_raises (st : state World) :
  dict_get [("object", PyStr ("user" ++ Cases.lone)); ("entry", PyList [])] "object" PyNone
    <> PyStr "page" /\
  handler Cases.surrogate_user_object st = (Raised UnicodeEncodeError, st).
Proof. split; [discriminate | reflexivity]. Qed.

(** C3: a comment of the page itself whose message holds a lone
    surrogate is not acknowledged: the print of line 129 raises before the
    self-reply guard of line 135 is reached. *)
Theorem own_comment_with_surrogate_raises (st : state World) :
  comment_event (Samples.comment "c_2" ("Gracias " ++ Cases.lone) "page_1")
    = Some (PyStr "c_2", "Gracias " ++ Cases.lone, PyStr "page_1") /\
  py_eq (PyStr "page_1") (dict_get (Samples.page_entry "page_1" []) "id" PyNone) = true /\
  handler Cases.surrogate_own_comment st = (Raised UnicodeEncodeError, st).
Proof. repeat split. Qed.

(** C5: a blank comment whose id holds a lone surrogate is not
    acknowledged: the print of line 129 raises before the empty guard of
    line 139 is reached. *)
Theorem blank_comment_with_surrogate_raises (st : state World) :
  comment_event (Samples.comment Cases.lone "   " "user_8")
    = Some (PyStr Cases.lone, "   ", PyStr "user_8") /\
  strip "   " = "" /\
  handler Cases.surrogate_blank_comment st = (Raised UnicodeEncodeError, st).
Proof. repeat split. Qed.

(** C4: a question from a user whose message holds a lone surrogate is
    not answered: the print of line 129 raises, the generator is not called
    (the state is unchanged) and the request is not acknowledged. *)
Theorem question_with_surrogate_not_answered (st : state World) :
  comment_event (Samples.comment "c_1" ("¿Hacen sitios web? " ++ Cases.lone) "user_7")
    = Some (PyStr "c_1", "¿Hacen sitios web? " ++ Cases.lone, PyStr "user_7") /\
  py_eq (PyStr "user_7") (dict_get (Samples.page_entry "page_1" []) "id" PyNone) = false /\
  strip ("¿Hacen sitios web? " ++ Cases.lone) <> "" /\
  handler Cases.surrogate_question st = (Raised UnicodeEncodeError, st).
Proof. repeat split. vm_compute. discriminate. Qed.

(** C10: a question whose sender id holds a lone surrogate gets no
    apology when the generative service fails: the print of line 129
    raises before the generator is called, so neither it nor the poster is
    called, whatever the service would have done. *)
Theorem surrogate_sender_gets_no_apology (st : state World) :
  comment_event (Samples.comment "c_1" "¿Hacen sitios web?" (Cases.lone ++ "7"))
    = Some (PyStr "c_1", "¿Hacen sitios web?", PyStr (Cases.lone ++ "7")) /\
  py_eq (PyStr (Cases.lone ++ "7")) (dict_get (Samples.page_entry "page_1" []) "id" PyNone)
    = false /\
  strip "¿Hacen sitios web?" <> "" /\
  handler Cases.surrogate_sender st = (Raised UnicodeEncodeError, st).
Proof. repeat split. vm_compute. discriminate. Qed.

End Properties.

(** * The properties at work on sample requests *)

Import Samples.

Example strip_spaces : strip "   hola mundo  " = "hola mundo".
Proof. reflexivity. Qed.

Example strip_blank : strip (utf8 [32; 9; 10; 194; 160; 226; 128; 131]%nat) = "".
Proof. reflexivity. Qed.

Example strip_keeps_inner :
  strip (utf8 [227; 128; 128; 97; 32; 98; 194; 133]%nat) = "a b".
Proof. reflexivity. Qed.

Example py_eq_bool_int : py_eq (PyBool true) (PyInt 1) = true.
Proof. reflexivity. Qed.

Example py_eq_dict_order :
  py_eq (PyDict [("a", PyInt 1); ("b", PyNone)]) (PyDict [("b", PyNone); ("a", PyInt 1)]) = true.
Proof. reflexivity. Qed.

(** Fields left out are defaulted; each of these deliveries is answered
    200 and calls nothing. *)
Example empty_object_tolerated :
  facebook_webhook_handler (gemini GenRaises) (graph_api PostOk) cfg
    {| method := "POST"; args := []; get_json := PyDict [] |} start
  = (Normal {| body := "EVENT_RECEIVED"; status := 200 |}, start).
Proof. reflexivity. Qed.

Example empty_entry_tolerated :
  facebook_webhook_handler (gemini GenRaises) (graph_api PostOk) cfg
    (delivery [PyDict []; PyDict [("changes", PyList [PyDict []])]]) start
  = (Normal {| body := "EVENT_RECEIVED"; status := 200 |}, start).
Proof. reflexivity. Qed.

(** A comment with nothing but its [item]: no message, no sender, in an
    entry without [id].  Sender and page are both [None], so the self-reply
    guard answers. *)
Example bare_comment_tolerated :
  facebook_webhook_handler (gemini GenRaises) (graph_api PostOk) cfg
    (delivery [PyDict [("changes",
       PyList [PyDict [("field", PyStr "feed");
                       ("value", PyDict [("item", PyStr "comment")])]])]]) start
  = (Normal {| body := "EVENT_RECEIVED_FROM_PAGE_ITSELF"; status := 200 |}, start).
Proof. reflexivity. Qed.

(** A question is answered and the answer posted, even when posting fails. *)
Example question_answered :
  facebook_webhook_handler (gemini (GenText "Sí, los hacemos.")) (graph_api (PostRaises None)) cfg
    (delivery [PyDict (page_entry "page_1" [question])]) start
  = (Normal {| body := "EVENT_RECEIVED"; status := 200 |},
     {| world := 2%nat;
        calls := [GeneratorCall "¿Hacen sitios web?" "Tu Página de FB" "asistente virtual";
                  PosterCall (PyStr "c_1") "Sí, los hacemos."] |}).
Proof. reflexivity. Qed.

(** A valid comment handled before the page's own comment is answered;
    the one after it is not. *)
Example earlier_comment_answered :
  facebook_webhook_handler (gemini (GenText "Hola")) (graph_api PostOk) cfg
    (delivery [PyDict (page_entry "page_1" [question; own_comment; question])]) start
  = (Normal {| body := "EVENT_RECEIVED_FROM_PAGE_ITSELF"; status := 200 |},
     {| world := 2%nat;
        calls := [GeneratorCall "¿Hacen sitios web?" "Tu Página de FB" "asistente virtual";
                  PosterCall (PyStr "c_1") "Hola"] |}).
Proof. reflexivity. Qed.

(** A verify-token other than the secret is refused. *)
Example wrong_token_refused :
  facebook_webhook_handler (gemini GenRaises) (graph_api PostOk) cfg
    (verification [("hub.verify_token", "otro"); ("hub.challenge", "abc123")]) start
  = (Normal {| body := "Error, token de verificación incorrecto"; status := 403 |}, start).
Proof. reflexivity. Qed.

(** The sample services are well-behaved. *)
Lemma samples_behave (answer : gen_result) (posted : post_result) (c : config) :
  match answer with GenText text => has_surrogate text = false | GenRaises => True end ->
  (forall e, posted <> PostError e) ->
  match FB_PAGE_ACCESS_TOKEN c with
  | Some token => has_surrogate token = false
  | None => True
  end ->
  well_behaved (gemini answer) (graph_api posted) c.
Proof.
  intros Hgen Hpost Htoken. split; [| split; [| exact Htoken]].
  - intros m p w text H. simpl in H. subst answer. exact Hgen.
  - intros url data w e H. simpl in H. now apply (Hpost e).
Qed.


Lemma handshake_without_secret_witness :
  facebook_webhook_handler (gemini GenRaises) (graph_api PostOk) cfg_unset
    (verification [("hub.challenge", "abc123")]) start
  = (Normal {| body := "abc123"; status := 200 |}, start).
Proof.
  apply (handshake_without_secret (gemini GenRaises) (graph_api PostOk) cfg_unset
           (verification [("hub.challenge", "abc123")]) start "abc123");
    reflexivity.
Defined.

Lemma other_object_acknowledged_witness :
  facebook_webhook_handler (gemini (GenText "Hola")) (graph_api PostOk) cfg
    {| method := "POST"; args := [];
       get_json := PyDict [("object", PyStr "user");
                           ("entry", PyList [PyDict (page_entry "page_1" [question])])] |}
    start
  = (Normal {| body := "EVENT_RECEIVED"; status := 200 |}, start).
Proof.
  apply (other_object_acknowledged (gemini (GenText "Hola")) (graph_api PostOk) cfg _ start
           [("object", PyStr "user");
            ("entry", PyList [PyDict (page_entry "page_1" [question])])]).
  - reflexivity.
  - reflexivity.
  - vm_compute. discriminate.
  - reflexivity.
Defined.

Lemma well_formed_delivery_acknowledged_witness :
  exists r st',
    facebook_webhook_handler (gemini GenRaises) (graph_api (PostRaises (Some "(#200)"))) cfg
      (delivery [PyDict (page_entry "page_1" [question; blank_comment])]) start
    = (Normal r, st') /\ status r = 200.
Proof.
  apply (well_formed_delivery_acknowledged
           (gemini GenRaises) (graph_api (PostRaises (Some "(#200)"))) cfg
           (delivery [PyDict (page_entry "page_1" [question; blank_comment])]) start).
  - apply samples_behave; [exact I | discriminate | reflexivity].
  - reflexivity.
  - reflexivity.
  - reflexivity.
Defined.

Lemma self_reply_short_circuits_witness :
  facebook_webhook_handler (gemini (GenText "Hola")) (graph_api PostOk) cfg
    (delivery [PyDict (page_entry "page_1" [own_comment; question]);
               PyDict (page_entry "page_1" [question])]) start
  = (Normal {| body := "EVENT_RECEIVED_FROM_PAGE_ITSELF"; status := 200 |}, start).
Proof.
  apply (self_reply_short_circuits (gemini (GenText "Hola")) (graph_api PostOk) cfg
           (delivery [PyDict (page_entry "page_1" [own_comment; question]);
                      PyDict (page_entry "page_1" [question])])
           [] (page_entry "page_1" [own_comment; question]) [] own_comment [question]
           [PyDict (page_entry "page_1" [question])] start start
           (PyStr "c_2") (PyStr "page_1") "Gracias por escribir").
  - split; [reflexivity |]. eexists. repeat split; reflexivity.
  - exists start. split; reflexivity.
  - reflexivity.
  - reflexivity.
  - reflexivity.
Defined.

Lemma empty_comment_short_circuits_witness :
  facebook_webhook_handler (gemini (GenText "Hola")) (graph_api PostOk) cfg
    (delivery [PyDict (page_entry "page_1" [blank_comment; question]);
               PyDict (page_entry "page_1" [question])]) start
  = (Normal {| body := "EVENT_RECEIVED_EMPTY_COMMENT"; status := 200 |}, start).
Proof.
  apply (empty_comment_short_circuits (gemini (GenText "Hola")) (graph_api PostOk) cfg
           (delivery [PyDict (page_entry "page_1" [blank_comment; question]);
                      PyDict (page_entry "page_1" [question])])
           [] (page_entry "page_1" [blank_comment; question]) [] blank_comment [question]
           [PyDict (page_entry "page_1" [question])] start start
           (PyStr "c_3") (PyStr "user_8") "   ").
  - split; [reflexivity |]. eexists. repeat split; reflexivity.
  - exists start. split; reflexivity.
  - reflexivity.
  - reflexivity.
  - reflexivity.
Defined.

Lemma comment_answered_witness :
  exists ai_response st_g r st_f more,
    get_gemini_response (gemini (GenText "Hola")) cfg
      "¿Hacen sitios web?" "Tu Página de FB" "asistente virtual" start
      = (Normal ai_response, st_g) /\
    facebook_webhook_handler (gemini (GenText "Hola")) (graph_api (PostRaises None)) cfg
      (delivery [PyDict (page_entry "page_1" [question; own_comment])]) start
      = (Normal r, st_f) /\
    status r = 200 /\
    calls st_f =
      (calls start ++
       [GeneratorCall "¿Hacen sitios web?" "Tu Página de FB" "asistente virtual"] ++
       (if String.eqb ai_response "" then [] else [PosterCall (PyStr "c_1") ai_response]) ++
       more)%list.
Proof.
  apply (comment_answered (gemini (GenText "Hola")) (graph_api (PostRaises None)) cfg
           (delivery [PyDict (page_entry "page_1" [question; own_comment])])
           [] (page_entry "page_1" [question; own_comment]) [] question [own_comment]
           [] start start
           (PyStr "c_1") (PyStr "user_7") "  ¿Hacen sitios web? ").
  - apply samples_behave; [reflexivity | discriminate | reflexivity].
  - split; [reflexivity |]. eexists. repeat split; reflexivity.
  - exists start. split; reflexivity.
  - reflexivity.
  - reflexivity.
  - reflexivity.
  - vm_compute. discriminate.
  - reflexivity.
  - reflexivity.
  - reflexivity.
  - reflexivity.
Defined.

Lemma apology_is_posted_witness :
  exists apology r st_f more,
    (apology = fallback_no_model \/ apology = fallback_exception) /\
    apology <> "" /\
    facebook_webhook_handler (gemini GenRaises) (graph_api PostOk) cfg
      (delivery [PyDict (page_entry "page_1" [question])]) start
      = (Normal r, st_f) /\
    status r = 200 /\
    calls st_f =
      (calls start ++
       [GeneratorCall "¿Hacen sitios web?" "Tu Página de FB" "asistente virtual";
        PosterCall (PyStr "c_1") apology] ++
       more)%list.
Proof.
  apply (apology_is_posted (gemini GenRaises) (graph_api PostOk) cfg
           (delivery [PyDict (page_entry "page_1" [question])])
           [] (page_entry "page_1" [question]) [] question [] [] start start
           (PyStr "c_1") (PyStr "user_7") "  ¿Hacen sitios web? ").
  - apply samples_behave; [exact I | discriminate | reflexivity].
  - split; [reflexivity |]. eexists. repeat split; reflexivity.
  - exists start. split; reflexivity.
  - reflexivity.
  - reflexivity.
  - reflexivity.
  - vm_compute. discriminate.
  - reflexivity.
  - reflexivity.
  - reflexivity.
  - reflexivity.
  - reflexivity.
Defined.

(** * Further properties of the handler and of the poster *)

(** ** Lists of exchanges *)

Lemma exchanges_unanswered (text pn pd text' pn' pd' : string) (rest : list call) :
  exchanges (GeneratorCall text pn pd :: GeneratorCall text' pn' pd' :: rest) =
  negb (String.eqb text "") && exchanges (GeneratorCall text' pn' pd' :: rest).
Proof. reflexivity. Qed.

Lemma exchanges_posted (text pn pd reply : string) (cid : value) (rest : list call) :
  exchanges (GeneratorCall text pn pd :: PosterCall cid reply :: rest) =
  negb (String.eqb text "") && (negb (String.eqb reply "") && exchanges rest).
Proof. reflexivity. Qed.

Lemma exchanges_app_len (n : nat) (l1 l2 : list call) :
  (List.length l1 <= n)%nat ->
  exchanges l1 = true -> exchanges l2 = true -> exchanges (l1 ++ l2) = true.
Proof.
  revert l1. induction n as [| n IH]; intros l1 Hlen H1 H2.
  - destruct l1; [exact H2 | simpl in Hlen; lia].
  - destruct l1 as [| [text pn pd | cid reply] rest]; [exact H2 | | discriminate].
    simpl in Hlen.
    destruct rest as [| [text' pn' pd' | cid' reply'] rest'].
    + simpl in *. apply andb_true_iff in H1 as [Ht _]. rewrite Ht. simpl.
      destruct l2 as [| [? ? ? | ? ?] ?]; [reflexivity | exact H2 | discriminate].
    + rewrite exchanges_unanswered in H1. apply andb_true_iff in H1 as [Ht Hrest].
      rewrite <- !app_comm_cons, exchanges_unanswered.
      apply andb_true_iff. split; [exact Ht |].
      rewrite app_comm_cons. apply IH; [simpl in *; lia | exact Hrest | exact H2].
    + rewrite exchanges_posted in H1. apply andb_true_iff in H1 as [Ht H1].
      apply andb_true_iff in H1 as [Hr Hrest].
      rewrite <- !app_comm_cons, exchanges_posted, Ht, Hr. simpl andb.
      apply IH; [simpl in *; lia | exact Hrest | exact H2].
Qed.

Lemma exchanges_app (l1 l2 : list call) :
  exchanges l1 = true -> exchanges l2 = true -> exchanges (l1 ++ l2) = true.
Proof. apply (exchanges_app_len (List.length l1)). lia. Qed.

Lemma exchanges_poster_len (n : nat) (l : list call) (cid : value) (reply : string) :
  (List.length l <= n)%nat ->
  exchanges l = true -> In (PosterCall cid reply) l ->
  reply <> "" /\
  exists l1 text pn pd l2, l = (l1 ++ GeneratorCall text pn pd :: PosterCall cid reply :: l2)%list.
Proof.
  revert l. induction n as [| n IH]; intros l Hlen Hex Hin.
  - destruct l; [contradiction | simpl in Hlen; lia].
  - destruct l as [| [text pn pd | cid0 reply0] rest]; [contradiction | | discriminate].
    simpl in Hlen. destruct Hin as [Hin | Hin]; [discriminate |].
    destruct rest as [| [text' pn' pd' | cid' reply'] rest'].
    + contradiction.
    + rewrite exchanges_unanswered in Hex. apply andb_true_iff in Hex as [_ Hrest].
      assert (Hn : (List.length (GeneratorCall text' pn' pd' :: rest') <= n)%nat)
        by (simpl in *; lia).
      destruct (IH _ Hn Hrest Hin) as (Hne & l1 & t & a & b & l2 & Heq).
      split; [exact Hne |]. exists (GeneratorCall text pn pd :: l1), t, a, b, l2.
      simpl. now rewrite Heq.
    + rewrite exchanges_posted in Hex. apply andb_true_iff in Hex as [_ Hex].
      apply andb_true_iff in Hex as [Hr Hrest].
      destruct Hin as [Hin | Hin].
      * injection Hin as <- <-. split.
        -- apply String.eqb_neq. now destruct (String.eqb reply' "").
        -- now exists [], text, pn, pd, rest'.
      * assert (Hn : (List.length rest' <= n)%nat) by (simpl in *; lia).
        destruct (IH _ Hn Hrest Hin) as (Hne & l1 & t & a & b & l2 & Heq).
        split; [exact Hne |].
        exists (GeneratorCall text pn pd :: PosterCall cid' reply' :: l1), t, a, b, l2.
        simpl. now rewrite Heq.
Qed.

Section Further.

Context {World : Type}.
Variable generate_content : GenerativeModel -> string -> World -> gen_result * World.
Variable requests_post : list fpart -> list (string * string) -> World -> post_result * World.
Variable cfg : config.

Notation "'handler'" := (facebook_webhook_handler generate_content requests_post cfg).
Notation "'generator'" := (get_gemini_response generate_content cfg).
Notation "'poster'" := (post_facebook_reply requests_post cfg).
Notation "'on_change'" := (handle_change generate_content requests_post cfg).
Notation "'on_entry'" := (handle_entry generate_content requests_post cfg).

(** ** Orderly runs *)

Lemma orderly_still {A} (st : state World) (o : outcome A) :
  match o with Returned r => acknowledgement r = true | _ => True end ->
  orderly st (o, st).
Proof.
  intro H. split; [| exact H]. exists []. simpl. now rewrite app_nil_r.
Qed.

Lemma orderly_lift {A} (x : exn + A) (st : state World) : orderly st (lift x st).
Proof. destruct x; apply orderly_still; exact I. Qed.

Lemma orderly_bind {A B} (m : M World A) (k : A -> M World B) (st : state World) :
  orderly st (m st) ->
  (forall a st1, orderly st1 (k a st1)) ->
  orderly st (bind m k st).
Proof.
  unfold orderly, bind. intros [(l1 & H1 & E1) Hm] Hk.
  destruct (m st) as [[a | r | x] st1]; simpl in *.
  - destruct (Hk a st1) as [(l2 & H2 & E2) Hr]. split; [| exact Hr].
    exists (l1 ++ l2)%list. split; [now rewrite H2, H1, app_assoc | now apply exchanges_app].
  - split; [now exists l1 | exact Hm].
  - split; [now exists l1 | exact I].
Qed.

Lemma orderly_for_each {A} (body : A -> M World unit) (xs : list A) :
  (forall x st, orderly st (body x st)) ->
  forall st, orderly st (for_each body xs st).
Proof.
  intro Hbody. induction xs as [| x xs IH]; intro st; simpl.
  - now apply orderly_still.
  - apply orderly_bind; [apply Hbody | intros _ st1; apply IH].
Qed.

Lemma print_keeps (text : list fpart) (st : state World) :
  py_print text st = (Normal tt, st) \/ py_print text st = (Raised UnicodeEncodeError, st).
Proof. unfold py_print. destruct (existsb part_unprintable text); [now right | now left]. Qed.

(** A change that is not a comment event leaves the state as it is. *)
Lemma no_event_no_effect (page_id change : value) (st : state World) :
  comment_event change = None ->
  snd (on_change page_id change st) = st /\
  match fst (on_change page_id change st) with Returned _ => False | _ => True end.
Proof.
  unfold comment_event, handle_change, bind, lift, py_get, py_strip, ret, raise.
  destruct change as [| | | | | c]; try (intros _; split; [reflexivity | exact I]).
  destruct (py_eq (dict_get c "field" PyNone) (PyStr "feed"));
    [| intros _; split; [reflexivity | exact I]].
  destruct (dict_get c "value" (PyDict [])) as [| | | | | v];
    try (intros _; split; [reflexivity | exact I]).
  destruct (py_eq (dict_get v "item" PyNone) (PyStr "comment")).
  2: { intros _.
       match goal with
       | |- context [py_print ?text st] => destruct (print_keeps text st) as [-> | ->]
       end; split; [reflexivity | exact I | reflexivity | exact I]. }
  destruct (dict_get v "message" (PyStr "")) as [| | | m | |];
    try (intros _; split; [reflexivity | exact I]).
  destruct (dict_get v "from" (PyDict [])) as [| | | | | f];
    try (intros _; split; [reflexivity | exact I]).
  discriminate.
Qed.

(** The statements that answer a comment, whatever the two services do. *)
Lemma orderly_reply (comment_id : value) (text : string) (st : state World) :
  text <> "" ->
  orderly st
    ((ai_response <- generator text "Tu Página de FB" "asistente virtual" ;;
      py_print [Lit "DEBUG: Respuesta generada por Gemini: '"; Fmt (PyStr ai_response);
                Lit "'"] ;;;
      if negb (String.eqb ai_response "") then
        success <- poster comment_id ai_response ;; ret tt
      else ret tt) st).
Proof.
  intro Htext. apply String.eqb_neq in Htext.
  destruct (generator_result generate_content cfg text "Tu Página de FB" "asistente virtual" st)
    as (ai & st_g & Hg & Hgc & _).
  unfold bind at 1. rewrite Hg. unfold bind at 1.
  match goal with
  | |- context [py_print ?t st_g] => destruct (print_keeps t st_g) as [-> | ->]
  end.
  - destruct (String.eqb ai "") eqn:Eai; cbn [negb].
    + split; [| exact I]. exists [GeneratorCall text "Tu Página de FB" "asistente virtual"].
      split; [exact Hgc | simpl; now rewrite Htext].
    + destruct (poster_outcome requests_post cfg comment_id ai st_g)
        as (o & st_p & Hp & Hpc & Ho).
      unfold bind. rewrite Hp.
      assert (Hmore : exists more,
                 calls st_p = (calls st ++ more)%list /\ exchanges more = true).
      { exists [GeneratorCall text "Tu Página de FB" "asistente virtual";
                PosterCall comment_id ai].
        split; [rewrite Hpc, Hgc, <- app_assoc; reflexivity |].
        simpl. now rewrite Htext, Eai. }
      destruct o as [ok | r | x]; [| contradiction |]; (split; [exact Hmore | exact I]).
  - split; [| exact I]. exists [GeneratorCall text "Tu Página de FB" "asistente virtual"].
    split; [exact Hgc | simpl; now rewrite Htext].
Qed.

Lemma orderly_on_change (page_id change : value) (st : state World) :
  orderly st (on_change page_id change st).
Proof.
  destruct (comment_event change) as [[[comment_id message] sender_id] |] eqn:Hev.
  - rewrite (on_change_comment_event generate_content requests_post cfg page_id change
               comment_id sender_id message st Hev).
    destruct (loggable (comment_id, message, sender_id)); cbn [negb];
      [| now apply orderly_still].
    destruct (py_eq sender_id page_id); [now apply orderly_still |].
    destruct (String.eqb (strip message) "") eqn:Eempty; [now apply orderly_still |].
    apply orderly_reply. now apply String.eqb_neq.
  - destruct (no_event_no_effect page_id change st Hev) as [Hst Hout].
    destruct (on_change page_id change st) as [[[] | r | x] st1]; simpl in *; subst st1;
      [now apply orderly_still | contradiction | now apply orderly_still].
Qed.

Lemma orderly_on_entry (entry : value) (st : state World) :
  orderly st (on_entry entry st).
Proof.
  unfold handle_entry.
  apply orderly_bind; [apply orderly_lift | intros page_id st1].
  apply orderly_bind; [apply orderly_lift | intros changes st2].
  apply orderly_bind; [apply orderly_lift | intros cs st3].
  apply orderly_for_each. intros c st4. apply orderly_on_change.
Qed.

(** The statements of the POST branch, before the view returns. *)
Lemma handler_post (req : request) (st : state World) :
  method req = "POST" ->
  handler req st =
  call_view
    (object <- lift (py_get (get_json req) "object" PyNone) ;;
     (if py_eq object (PyStr "page") then
        entries <- lift (py_get (get_json req) "entry" (PyList [])) ;;
        entries <- lift (py_iter entries) ;;
        for_each on_entry entries
      else
        py_print [Lit "DEBUG: Objeto de la solicitud POST no es 'page': "; Fmt object]) ;;;
     r <- make_response (Some "EVENT_RECEIVED") 200 ;; return_ r) st.
Proof.
  intro Hm. unfold facebook_webhook_handler. rewrite Hm. reflexivity.
Qed.

Lemma orderly_post_body (data : value) (st : state World) :
  orderly (A := response) st
    ((object <- lift (py_get data "object" PyNone) ;;
      (if py_eq object (PyStr "page") then
         entries <- lift (py_get data "entry" (PyList [])) ;;
         entries <- lift (py_iter entries) ;;
         for_each on_entry entries
       else
         py_print [Lit "DEBUG: Objeto de la solicitud POST no es 'page': "; Fmt object]) ;;;
      r <- make_response (Some "EVENT_RECEIVED") 200 ;; return_ r) st).
Proof.
  apply orderly_bind; [apply orderly_lift | intros object st1].
  apply orderly_bind.
  - destruct (py_eq object (PyStr "page")).
    2: { match goal with
         | |- context [py_print ?t st1] => destruct (print_keeps t st1) as [-> | ->]
         end; now apply orderly_still. }
    apply orderly_bind; [apply orderly_lift | intros entries st2].
    apply orderly_bind; [apply orderly_lift | intros es st3].
    apply orderly_for_each. intros x st4. apply orderly_on_entry.
  - intros _ st2. now apply orderly_still.
Qed.

(** Statements that end with [return] do not fall through. *)
Lemma bind_not_normal {A B} (m : M World A) (k : A -> M World B) (st : state World) :
  (forall a st1 b, fst (k a st1) <> Normal b) ->
  forall b, fst (bind m k st) <> Normal b.
Proof.
  intros Hk b. unfold bind. destruct (m st) as [[a | r | x] st1]; simpl;
    [apply Hk | discriminate | discriminate].
Qed.

(** What every request adds to the calls, and how a POST can end. *)
Lemma handler_orderly (req : request) (st : state World) :
  (exists more,
     calls (snd (handler req st)) = (calls st ++ more)%list /\ exchanges more = true) /\
  (method req = "POST" ->
   forall r st', handler req st = (Normal r, st') -> acknowledgement r = true).
Proof.
  destruct (String.eqb (method req) "POST") eqn:Epost.
  - apply String.eqb_eq in Epost.
    rewrite (handler_post req st Epost). unfold call_view.
    destruct (orderly_post_body (get_json req) st) as [Hcalls Hret].
    match type of Hcalls with
    | context [snd (?body st)] => destruct (body st) as [[r | r | x] st1] eqn:Hrun
    end; simpl in *.
    + split; [exact Hcalls |]. intros _ r' st' H. injection H as <- <-.
      exfalso. apply (f_equal fst) in Hrun. revert Hrun. simpl.
      apply bind_not_normal. intros object st2 b.
      apply bind_not_normal. intros _ st3 b'. discriminate.
    + split; [exact Hcalls |]. intros _ r' st' H. now injection H as <- <-.
    + split; [exact Hcalls |]. intros _ r' st' H. discriminate.
  - split; [| intro Hm; apply String.eqb_neq in Epost; contradiction].
    exists []. split; [| reflexivity]. rewrite app_nil_r.
    unfold facebook_webhook_handler, call_view, bind, make_response, return_, ret, raise.
    rewrite Epost.
    destruct (String.eqb (method req) "GET"); [| reflexivity].
    destruct (opt_eqb _ _); [| reflexivity].
    destruct (args_get "hub.challenge" (args req)); reflexivity.
Qed.

(** ** Methods and the handshake *)

(** X1: a request whose method is neither GET nor POST is answered 405
    with the fixed body; nothing is called. *)
Theorem other_methods_refused (req : request) (st : state World) :
  method req <> "GET" ->
  method req <> "POST" ->
  handler req st = (Normal {| body := "Método no permitido"; status := 405 |}, st).
Proof.
  intros Hget Hpost. apply String.eqb_neq in Hget, Hpost.
  unfold facebook_webhook_handler. rewrite Hget, Hpost. reflexivity.
Qed.

(** X2: a GET request leaves the state as it is, whatever its parameters
    and however it ends: the handshake calls neither collaborator and
    reaches neither service. *)
Theorem verification_has_no_effect (req : request) (st : state World) :
  method req = "GET" ->
  snd (handler req st) = st.
Proof.
  intro Hm.
  unfold facebook_webhook_handler, call_view, bind, make_response, return_, ret, raise.
  rewrite Hm. simpl.
  destruct (opt_eqb _ _); [| reflexivity].
  destruct (args_get "hub.challenge" (args req)); reflexivity.
Qed.

(** ** The poster *)

(** X4: [post_facebook_reply] records its call and then: without an
    access token (unset or empty) returns [False], the world untouched;
    with a message or a token that holds a lone surrogate raises
    [UnicodeEncodeError], nothing being sent; otherwise makes the one
    request to the comment's [/comments] edge with the message and the
    token, returns [True] when it completes and [False] on a
    [RequestException], and lets any other exception through. *)
Theorem poster_reports (comment_id : value) (message : string) (st : state World) :
  exists o st',
    poster comment_id message st = (o, st') /\
    calls st' = (calls st ++ [PosterCall comment_id message])%list /\
    match FB_PAGE_ACCESS_TOKEN cfg with
    | Some token =>
        if String.eqb token "" then o = Normal false /\ world st' = world st
        else if has_surrogate message || has_surrogate token then
          o = Raised UnicodeEncodeError /\ world st' = world st
        else
          let sent :=
            requests_post
              [Lit "https://graph.facebook.com/v23.0/"; Fmt comment_id; Lit "/comments"]
              [("message", message); ("access_token", token)] (world st) in
          world st' = snd sent /\
          o = match fst sent with
              | PostOk => Normal true
              | PostRaises _ => Normal false
              | PostError e => Raised e
              end
    | None => o = Normal false /\ world st' = world st
    end.
Proof.
  unfold post_facebook_reply, bind, record_call, ask_requests_post, ret, raise.
  destruct (FB_PAGE_ACCESS_TOKEN cfg) as [token |]; simpl.
  - destruct (String.eqb token ""); simpl.
    + eexists _, _; repeat split; reflexivity.
    + rewrite orb_false_r.
      destruct (has_surrogate message || has_surrogate token); simpl.
      * eexists _, _; repeat split; reflexivity.
      * match goal with
        | |- context [requests_post ?u ?p ?w] =>
            destruct (requests_post u p w) as [[| text | x] w']
        end; simpl; eexists _, _; repeat split; reflexivity.
  - eexists _, _; repeat split; reflexivity.
Qed.

(** ** The calls of a request *)

(** X7: whatever the request, well-formed or not, and however it ends,
    the calls it adds are a sequence of exchanges: each generator call is
    for a text that is not empty, and a poster call only ever comes right
    after a generator call, with a reply that is not empty. *)
Theorem calls_are_exchanges (req : request) (st : state World) :
  exists more,
    calls (snd (handler req st)) = (calls st ++ more)%list /\ exchanges more = true.
Proof. exact (proj1 (handler_orderly req st)). Qed.

(** X8: the poster is never called with an empty message, and each of
    its calls directly follows a call of the generator. *)
Theorem never_posts_empty (req : request) (st : state World) (more : list call)
  (comment_id : value) (reply : string) :
  calls (snd (handler req st)) = (calls st ++ more)%list ->
  In (PosterCall comment_id reply) more ->
  reply <> "" /\
  exists before text page_name page_description after,
    more = (before ++ GeneratorCall text page_name page_description
                   :: PosterCall comment_id reply :: after)%list.
Proof.
  intros Hmore Hin.
  destruct (handler_orderly req st) as [(more' & Hmore' & Hex) _].
  rewrite Hmore in Hmore'. apply app_inv_head in Hmore'. subst more'.
  now apply (exchanges_poster_len (List.length more) more).
Qed.

(** X9: a POST that gets a response from the handler gets status 200
    with one of the three acknowledgement bodies; the only other way for
    it to end is an exception that nothing catches. *)
Theorem post_response_is_acknowledgement (req : request) (st st' : state World)
  (r : response) :
  method req = "POST" ->
  handler req st = (Normal r, st') ->
  acknowledgement r = true.
Proof.
  intros Hm Hrun. exact (proj2 (handler_orderly req st) Hm r st' Hrun).
Qed.

(** ** Requests the handler cannot make *)

Lemma bind_ext {A B} (m m' : M World A) (k k' : A -> M World B) (st : state World) :
  (forall st0, m st0 = m' st0) ->
  (forall a st1, k a st1 = k' a st1) ->
  bind m k st = bind m' k' st.
Proof.
  intros Hm Hk. unfold bind. rewrite Hm.
  destruct (m' st) as [[a | r | x] st1]; [apply Hk | reflexivity ..].
Qed.

Lemma for_each_ext {A} (body body' : A -> M World unit) (xs : list A) :
  (forall x st, body x st = body' x st) ->
  forall st, for_each body xs st = for_each body' xs st.
Proof.
  intro Hbody. induction xs as [| x xs IH]; intro st; simpl.
  - reflexivity.
  - apply bind_ext; [intro; apply Hbody | intros _ st1; apply IH].
Qed.

Lemma call_view_ext (m m' : M World response) (st : state World) :
  m st = m' st -> call_view m st = call_view m' st.
Proof. unfold call_view. now intros ->. Qed.

(** The view depends on the two services only through its collaborators. *)
Lemma handler_congruence
  (generate_content' : GenerativeModel -> string -> World -> gen_result * World)
  (requests_post' : list fpart -> list (string * string) -> World -> post_result * World) :
  (forall text pn pd st,
     generator text pn pd st = get_gemini_response generate_content' cfg text pn pd st) ->
  (forall comment_id message st,
     poster comment_id message st = post_facebook_reply requests_post' cfg comment_id message st) ->
  forall req st,
    handler req st = facebook_webhook_handler generate_content' requests_post' cfg req st.
Proof.
  intros Hg Hp req st.
  assert (Hchange : forall page_id change st0,
             on_change page_id change st0 =
             handle_change generate_content' requests_post' cfg page_id change st0).
  { intros page_id change st0. unfold handle_change.
    apply bind_ext; [reflexivity | intros field st1].
    destruct (py_eq field (PyStr "feed")); [| reflexivity].
    apply bind_ext; [reflexivity | intros item_value st2].
    apply bind_ext; [reflexivity | intros item_type st3].
    destruct (py_eq item_type (PyStr "comment")); [| reflexivity].
    apply bind_ext; [reflexivity | intros comment_id st4].
    apply bind_ext; [reflexivity | intros message st5].
    apply bind_ext; [reflexivity | intros user_message st6].
    apply bind_ext; [reflexivity | intros sender st7].
    apply bind_ext; [reflexivity | intros sender_id st8].
    apply bind_ext; [reflexivity | intros _ st9].
    destruct (py_eq sender_id page_id); [reflexivity |].
    destruct (String.eqb user_message ""); [reflexivity |].
    apply bind_ext; [reflexivity | intros _ st10].
    apply bind_ext; [intro; apply Hg | intros ai st11].
    apply bind_ext; [reflexivity | intros _ st12].
    destruct (negb (String.eqb ai "")); [| reflexivity].
    apply bind_ext; [intro; apply Hp | reflexivity]. }
  assert (Hentry : forall entry st0,
             on_entry entry st0 =
             handle_entry generate_content' requests_post' cfg entry st0).
  { intros entry st0. unfold handle_entry.
    apply bind_ext; [reflexivity | intros page_id st1].
    apply bind_ext; [reflexivity | intros changes st2].
    apply bind_ext; [reflexivity | intros cs st3].
    apply for_each_ext. intros c st4. apply Hchange. }
  unfold facebook_webhook_handler. apply call_view_ext.
  destruct (String.eqb (method req) "GET"); [reflexivity |].
  destruct (String.eqb (method req) "POST"); [| reflexivity].
  apply bind_ext; [reflexivity | intros object st1].
  apply bind_ext; [| reflexivity].
  intro st2. destruct (py_eq object (PyStr "page")); [| reflexivity].
  apply bind_ext; [reflexivity | intros entries st3].
  apply bind_ext; [reflexivity | intros es st4].
  apply for_each_ext. intros x st5. apply Hentry.
Qed.

(** X5: with the page access token unset or empty, the handler makes no
    request to the Graph API: its result, state included, is the same
    whatever the Graph API would have answered. *)
Theorem no_token_no_post
  (requests_post' : list fpart -> list (string * string) -> World -> post_result * World)
  (req : request) (st : state World) :
  FB_PAGE_ACCESS_TOKEN cfg = None \/ FB_PAGE_ACCESS_TOKEN cfg = Some "" ->
  handler req st = facebook_webhook_handler generate_content requests_post' cfg req st.
Proof.
  intro Htoken. apply handler_congruence; [reflexivity |].
  intros comment_id message st0. unfold post_facebook_reply.
  destruct Htoken as [-> | ->]; reflexivity.
Qed.

(** X6: with no model, the handler makes no request to the generative
    service: its result, state included, is the same whatever the
    service would have answered. *)
Theorem no_model_no_generation
  (generate_content' : GenerativeModel -> string -> World -> gen_result * World)
  (req : request) (st : state World) :
  gemini_model cfg = None ->
  handler req st = facebook_webhook_handler generate_content' requests_post cfg req st.
Proof.
  intro Hmodel. apply handler_congruence; [| reflexivity].
  intros text pn pd st0. unfold get_gemini_response. rewrite Hmodel. reflexivity.
Qed.

(** ** Feed changes that are not comments *)

Lemma skip_not_a_comment (page_id change : value) (st : state World) :
  not_a_comment change = true ->
  on_change page_id change st = (Normal tt, st).
Proof.
  unfold not_a_comment, handle_change, bind, lift, py_get, ret.
  destruct change as [| | | | | c]; try discriminate.
  destruct (py_eq (dict_get c "field" PyNone) (PyStr "feed")); [| reflexivity].
  destruct (dict_get c "value" (PyDict [])) as [| | | | | v]; try discriminate.
  destruct (py_eq (dict_get v "item" PyNone) (PyStr "comment")); [discriminate |].
  intro H. rewrite print_value by reflexivity.
  now destruct (unprintable (dict_get v "item" PyNone)).
Qed.

Lemma skip_entry (entry : value) (st : state World) :
  without_comments entry = true ->
  on_entry entry st = (Normal tt, st).
Proof.
  unfold without_comments.
  destruct entry as [| | | | | e]; try discriminate.
  destruct (dict_get e "changes" (PyList [])) as [| | | | cs |] eqn:Hcs; try discriminate.
  intro Hall. rewrite (on_entry_dict generate_content requests_post cfg e cs st Hcs).
  clear Hcs. revert st. induction cs as [| c cs IH]; intro st; simpl; [reflexivity |].
  simpl in Hall. apply andb_true_iff in Hall as [Hc Hall].
  unfold bind. rewrite (skip_not_a_comment _ c st Hc). now apply IH.
Qed.

(** X10: a delivery for a page in which no change is a comment (each is
    for another field, whatever its value, or is a feed item of another
    kind, whose [item] can be printed) is acknowledged with 200
    "EVENT_RECEIVED"; nothing is called and the world is untouched. *)
Theorem non_comments_ignored (req : request) (d : list (string * value))
  (es : list value) (st : state World) :
  method req = "POST" ->
  get_json req = PyDict d ->
  dict_get d "object" PyNone = PyStr "page" ->
  dict_get d "entry" (PyList []) = PyList es ->
  forallb without_comments es = true ->
  handler req st = (Normal {| body := "EVENT_RECEIVED"; status := 200 |}, st).
Proof.
  intros Hm Hd Ho He Hall.
  rewrite (handler_page generate_content requests_post cfg req d es st Hm Hd Ho He).
  assert (Hloop : for_each on_entry es st = (Normal tt, st)).
  { clear He. revert st. induction es as [| x es IH]; intro st; simpl; [reflexivity |].
    simpl in Hall. apply andb_true_iff in Hall as [Hx Hall].
    unfold bind. rewrite (skip_entry x st Hx). now apply IH. }
  unfold call_view, bind. rewrite Hloop. reflexivity.
Qed.

(** ** Several comments in one delivery *)

Lemma generator_texts_app (l1 l2 : list call) :
  generator_texts (l1 ++ l2) = (generator_texts l1 ++ generator_texts l2)%list.
Proof. apply flat_map_app. Qed.

Lemma answer_step (page_id change : value) (text : string) (st : state World) :
  well_behaved generate_content requests_post cfg ->
  answerable page_id change = Some text ->
  exists st' more,
    on_change page_id change st = (Normal tt, st') /\
    calls st' = (calls st ++ more)%list /\
    generator_texts more = [text].
Proof.
  intro Hwb. unfold answerable.
  destruct (comment_event change) as [[[comment_id message] sender_id] |] eqn:Hev;
    [| discriminate].
  destruct (loggable (comment_id, message, sender_id)) eqn:Hlog; [| discriminate].
  cbn [negb].
  destruct (py_eq sender_id page_id) eqn:Eself; [discriminate |].
  destruct (String.eqb (strip message) "") eqn:Eempty; [discriminate |].
  intro H. injection H as <-. apply String.eqb_neq in Eempty.
  destruct (reply_step generate_content requests_post cfg
              page_id change comment_id sender_id message st Hwb Hev Hlog Eself Eempty)
    as (ai & st_g & st_p & _ & Hg & Hrun & Hp).
  exists st_p. eexists. split; [exact Hrun |].
  split; [rewrite Hp, Hg, <- app_assoc; reflexivity |].
  destruct (String.eqb ai ""); reflexivity.
Qed.

Lemma answer_entry (entry : value) (st : state World) :
  well_behaved generate_content requests_post cfg ->
  all_answerable entry = true ->
  exists st' more,
    on_entry entry st = (Normal tt, st') /\
    calls st' = (calls st ++ more)%list /\
    generator_texts more = entry_texts entry.
Proof.
  intro Hwb. unfold all_answerable, entry_texts.
  destruct entry as [| | | | | e]; try discriminate.
  destruct (dict_get e "changes" (PyList [])) as [| | | | cs |] eqn:Hcs; try discriminate.
  intro Hall. rewrite (on_entry_dict generate_content requests_post cfg e cs st Hcs).
  clear Hcs. revert st. induction cs as [| c cs IH]; intro st; simpl.
  - exists st, []. repeat split. simpl. now rewrite app_nil_r.
  - simpl in Hall. apply andb_true_iff in Hall as [Hc Hall].
    destruct (answerable (dict_get e "id" PyNone) c) as [text |] eqn:Hans; [| discriminate].
    destruct (answer_step _ c text st Hwb Hans) as (st1 & l1 & Hrun & Hl1 & Ht1).
    destruct (IH Hall st1) as (st2 & l2 & Hrest & Hl2 & Ht2).
    exists st2, (l1 ++ l2)%list. unfold bind. rewrite Hrun. split; [exact Hrest |].
    split; [now rewrite Hl2, Hl1, app_assoc |].
    now rewrite generator_texts_app, Ht1, Ht2.
Qed.

(** X11: in a delivery for a page all of whose changes are comments that
    can be logged and pass both guards, every comment is handed to the
    generator, in the order of the payload and with its stripped message,
    and the delivery is acknowledged with 200 "EVENT_RECEIVED", for every
    well-behaved generative service and Graph API, whatever they answer. *)
Theorem comments_answered_in_order (req : request) (d : list (string * value))
  (es : list value) (st : state World) :
  well_behaved generate_content requests_post cfg ->
  method req = "POST" ->
  get_json req = PyDict d ->
  dict_get d "object" PyNone = PyStr "page" ->
  dict_get d "entry" (PyList []) = PyList es ->
  forallb all_answerable es = true ->
  exists st' more,
    handler req st = (Normal {| body := "EVENT_RECEIVED"; status := 200 |}, st') /\
    calls st' = (calls st ++ more)%list /\
    generator_texts more = flat_map entry_texts es.
Proof.
  intros Hwb Hm Hd Ho He Hall.
  rewrite (handler_page generate_content requests_post cfg req d es st Hm Hd Ho He).
  assert (Hloop : exists st' more,
             for_each on_entry es st = (Normal tt, st') /\
             calls st' = (calls st ++ more)%list /\
             generator_texts more = flat_map entry_texts es).
  { clear He. revert st. induction es as [| x es IH]; intro st; simpl.
    - exists st, []. repeat split. simpl. now rewrite app_nil_r.
    - simpl in Hall. apply andb_true_iff in Hall as [Hx Hall].
      destruct (answer_entry x st Hwb Hx) as (st1 & l1 & Hrun & Hl1 & Ht1).
      destruct (IH Hall st1) as (st2 & l2 & Hrest & Hl2 & Ht2).
      exists st2, (l1 ++ l2)%list. unfold bind. rewrite Hrun. split; [exact Hrest |].
      split; [now rewrite Hl2, Hl1, app_assoc |].
      now rewrite generator_texts_app, Ht1, Ht2. }
  destruct Hloop as (st' & more & Hloop & Hcalls & Htexts).
  exists st', more. split; [| now split].
  unfold call_view, bind. rewrite Hloop. reflexivity.
Qed.

(** ** A failure after a reply *)

(** X12: when the change that follows an answered comment is not an
    object, the handler raises [AttributeError] there, and nothing is
    undone: the generator has been called for the comment and its reply,
    when not empty, has been handed to the poster.  The comment can be
    logged and the surroundings are well-behaved, so that it is answered. *)
Theorem failure_keeps_replies (req : request) (es1 : list value)
  (e : list (string * value)) (cs1 : list value) (change bad : value)
  (cs2 es2 : list value) (st st' : state World)
  (comment_id sender_id : value) (message : string) :
  well_behaved generate_content requests_post cfg ->
  delivery_at req es1 e cs1 change (bad :: cs2) es2 ->
  prefix_done generate_content requests_post cfg es1 e cs1 st st' ->
  comment_event change = Some (comment_id, message, sender_id) ->
  loggable (comment_id, message, sender_id) = true ->
  py_eq sender_id (dict_get e "id" PyNone) = false ->
  strip message <> "" ->
  is_dict bad = false ->
  exists ai_response st_g st_p,
    generator (strip message) "Tu Página de FB" "asistente virtual" st'
      = (Normal ai_response, st_g) /\
    handler req st = (Raised AttributeError, st_p) /\
    calls st_p =
      (calls st' ++
       GeneratorCall (strip message) "Tu Página de FB" "asistente virtual" ::
       if String.eqb ai_response "" then [] else [PosterCall comment_id ai_response])%list.
Proof.
  intros Hwb Hat Hpre Hev Hlog Hother Hmsg Hbad.
  destruct (reply_step generate_content requests_post cfg
              _ _ _ _ _ st' Hwb Hev Hlog Hother Hmsg)
    as (ai & st_g & st_p & Hg & Hgc & Hrun & Hpc).
  exists ai, st_g, st_p. split; [exact Hg |].
  split; [| rewrite Hpc, Hgc, <- app_assoc; reflexivity].
  rewrite (handler_at generate_content requests_post cfg _ _ _ _ _ _ _ _ _ Hat Hpre).
  unfold call_view, bind at 1. rewrite Hrun.
  cbn [for_each]. unfold bind at 1 2.
  destruct bad; try discriminate; reflexivity.
Qed.

(** ** Missing ids, and the generator's unused parameters *)

(** X13: a comment without a sender id, in an entry without [id], is
    taken for the page's own: both ids default to [None], which are equal,
    so the self-reply guard answers and the comment, once logged, gets no
    reply. *)
Theorem anonymous_comment_taken_for_own (req : request) (es1 : list value)
  (e : list (string * value)) (cs1 : list value) (change : value)
  (cs2 es2 : list value) (st st' : state World)
  (comment_id : value) (message : string) :
  delivery_at req es1 e cs1 change cs2 es2 ->
  prefix_done generate_content requests_post cfg es1 e cs1 st st' ->
  comment_event change = Some (comment_id, message, PyNone) ->
  loggable (comment_id, message, PyNone) = true ->
  lookup "id" e = None ->
  handler req st =
    (Normal {| body := "EVENT_RECEIVED_FROM_PAGE_ITSELF"; status := 200 |}, st').
Proof.
  intros Hat Hpre Hev Hlog Hid.
  rewrite (handler_at generate_content requests_post cfg _ _ _ _ _ _ _ _ _ Hat Hpre).
  unfold call_view, bind.
  rewrite (on_change_comment_event generate_content requests_post cfg
             _ _ _ _ _ _ Hev), Hlog.
  unfold dict_get. rewrite Hid. reflexivity.
Qed.

(** X14: the reply of [get_gemini_response] and the world it leaves do
    not depend on [page_name] and [page_description]: the prompt names the
    page itself and uses neither parameter. *)
Theorem generator_ignores_page_parameters
  (text page_name page_description page_name' page_description' : string)
  (st : state World) :
  fst (generator text page_name page_description st) =
  fst (generator text page_name' page_description' st) /\
  world (snd (generator text page_name page_description st)) =
  world (snd (generator text page_name' page_description' st)).
Proof.
  unfold get_gemini_response, bind, record_call, ask_gemini, ret.
  destruct (gemini_model cfg) as [m |]; simpl; [| split; reflexivity].
  destruct (generate_content m (prompt text) (world st)) as [[generated |] w];
    split; reflexivity.
Qed.

End Further.

(** * The further properties on sample requests *)

Import Cases.

Lemma other_methods_refused_witness :
  facebook_webhook_handler (gemini GenRaises) (graph_api PostOk) cfg
    {| method := "HEAD"; args := [("hub.challenge", "abc123")]; get_json := PyNone |} start
  = (Normal {| body := "Método no permitido"; status := 405 |}, start).
Proof.
  apply (other_methods_refused (gemini GenRaises) (graph_api PostOk) cfg
           {| method := "HEAD"; args := [("hub.challenge", "abc123")]; get_json := PyNone |}
           start);
    vm_compute; discriminate.
Defined.

Lemma verification_has_no_effect_witness :
  snd (facebook_webhook_handler (gemini GenRaises) (graph_api PostOk) cfg
         (verification [("hub.verify_token", "secreto")]) start) = start.
Proof.
  apply (verification_has_no_effect (gemini GenRaises) (graph_api PostOk) cfg
           (verification [("hub.verify_token", "secreto")]) start).
  reflexivity.
Defined.

Lemma handshake_without_challenge_witness :
  facebook_webhook_handler (gemini GenRaises) (graph_api PostOk) cfg
    (verification [("hub.mode", "subscribe"); ("hub.verify_token", "secreto")]) start
  = (Raised TypeError, start).
Proof.
  apply (handshake_without_challenge (gemini GenRaises) (graph_api PostOk) cfg
           (verification [("hub.mode", "subscribe"); ("hub.verify_token", "secreto")]) start);
    reflexivity.
Defined.

Lemma no_token_no_post_witness :
  facebook_webhook_handler (gemini (GenText "Hola")) (graph_api PostOk) cfg_no_token
    (delivery [PyDict (page_entry "page_1" [question; greeting])]) start
  = facebook_webhook_handler (gemini (GenText "Hola")) (graph_api (PostRaises None)) cfg_no_token
      (delivery [PyDict (page_entry "page_1" [question; greeting])]) start.
Proof.
  apply (no_token_no_post (gemini (GenText "Hola")) (graph_api PostOk) cfg_no_token
           (graph_api (PostRaises None))
           (delivery [PyDict (page_entry "page_1" [question; greeting])]) start).
  right. reflexivity.
Defined.

Lemma no_model_no_generation_witness :
  facebook_webhook_handler (gemini (GenText "Hola")) (graph_api PostOk) cfg_no_model
    (delivery [PyDict (page_entry "page_1" [question; greeting])]) start
  = facebook_webhook_handler (gemini GenRaises) (graph_api PostOk) cfg_no_model
      (delivery [PyDict (page_entry "page_1" [question; greeting])]) start.
Proof.
  apply (no_model_no_generation (gemini (GenText "Hola")) (graph_api PostOk) cfg_no_model
           (gemini GenRaises)
           (delivery [PyDict (page_entry "page_1" [question; greeting])]) start).
  reflexivity.
Defined.

Lemma never_posts_empty_witness :
  "Hola" <> "" /\
  exists before text page_name page_description after,
    [GeneratorCall "¿Hacen sitios web?" "Tu Página de FB" "asistente virtual";
     PosterCall (PyStr "c_1") "Hola";
     GeneratorCall "Buenas tardes" "Tu Página de FB" "asistente virtual";
     PosterCall (PyStr "c_5") "Hola"]
    = (before ++ GeneratorCall text page_name page_description
              :: PosterCall (PyStr "c_5") "Hola" :: after)%list.
Proof.
  apply (never_posts_empty (gemini (GenText "Hola")) (graph_api PostOk) cfg
           (delivery [PyDict (page_entry "page_1" [question; greeting])]) start).
  - reflexivity.
  - simpl. right. right. right. left. reflexivity.
Defined.

Lemma post_response_is_acknowledgement_witness :
  acknowledgement {| body := "EVENT_RECEIVED_EMPTY_COMMENT"; status := 200 |} = true.
Proof.
  apply (post_response_is_acknowledgement (gemini (GenText "Hola")) (graph_api PostOk) cfg
           (delivery [PyDict (page_entry "page_1" [question; blank_comment; null_message])])
           start
           {| world := 2%nat;
              calls := [GeneratorCall "¿Hacen sitios web?" "Tu Página de FB" "asistente virtual";
                        PosterCall (PyStr "c_1") "Hola"] |});
    reflexivity.
Defined.

Lemma non_comments_ignored_witness :
  facebook_webhook_handler (gemini (GenText "Hola")) (graph_api PostOk) cfg
    (delivery [PyDict (page_entry "page_1" [reaction; mention]); PyDict []]) start
  = (Normal {| body := "EVENT_RECEIVED"; status := 200 |}, start).
Proof.
  apply (non_comments_ignored (gemini (GenText "Hola")) (graph_api PostOk) cfg
           (delivery [PyDict (page_entry "page_1" [reaction; mention]); PyDict []])
           [("object", PyStr "page");
            ("entry", PyList [PyDict (page_entry "page_1" [reaction; mention]); PyDict []])]
           [PyDict (page_entry "page_1" [reaction; mention]); PyDict []] start);
    reflexivity.
Defined.

Lemma comments_answered_in_order_witness :
  exists st' more,
    facebook_webhook_handler (gemini GenRaises) (graph_api (PostRaises None)) cfg
      (delivery [PyDict (page_entry "page_1" [question; greeting]);
                 PyDict (page_entry "page_2" [own_comment])]) start
    = (Normal {| body := "EVENT_RECEIVED"; status := 200 |}, st') /\
    calls st' = (calls start ++ more)%list /\
    generator_texts more = ["¿Hacen sitios web?"; "Buenas tardes"; "Gracias por escribir"].
Proof.
  apply (comments_answered_in_order (gemini GenRaises) (graph_api (PostRaises None)) cfg
           (delivery [PyDict (page_entry "page_1" [question; greeting]);
                      PyDict (page_entry "page_2" [own_comment])])
           [("object", PyStr "page");
            ("entry", PyList [PyDict (page_entry "page_1" [question; greeting]);
                              PyDict (page_entry "page_2" [own_comment])])]
           [PyDict (page_entry "page_1" [question; greeting]);
            PyDict (page_entry "page_2" [own_comment])] start).
  - apply samples_behave; [exact I | discriminate | reflexivity].
  - reflexivity.
  - reflexivity.
  - reflexivity.
  - reflexivity.
  - reflexivity.
Defined.

Lemma failure_keeps_replies_witness :
  exists ai_response st_g st_p,
    get_gemini_response (gemini (GenText "Hola")) cfg
      "¿Hacen sitios web?" "Tu Página de FB" "asistente virtual" start
      = (Normal ai_response, st_g) /\
    facebook_webhook_handler (gemini (GenText "Hola")) (graph_api PostOk) cfg
      (delivery [PyDict (page_entry "page_1" [question; PyStr "feed"; greeting])]) start
      = (Raised AttributeError, st_p) /\
    calls st_p =
      (calls start ++
       GeneratorCall "¿Hacen sitios web?" "Tu Página de FB" "asistente virtual" ::
       if String.eqb ai_response "" then [] else [PosterCall (PyStr "c_1") ai_response])%list.
Proof.
  apply (failure_keeps_replies (gemini (GenText "Hola")) (graph_api PostOk) cfg
           (delivery [PyDict (page_entry "page_1" [question; PyStr "feed"; greeting])])
           [] (page_entry "page_1" [question; PyStr "feed"; greeting]) [] question
           (PyStr "feed") [greeting] [] start start
           (PyStr "c_1") (PyStr "user_7") "  ¿Hacen sitios web? ").
  - apply samples_behave; [reflexivity | discriminate | reflexivity].
  - split; [reflexivity |]. eexists. repeat split; reflexivity.
  - exists start. split; reflexivity.
  - reflexivity.
  - reflexivity.
  - reflexivity.
  - vm_compute. discriminate.
  - reflexivity.
Defined.

Lemma anonymous_comment_taken_for_own_witness :
  facebook_webhook_handler (gemini (GenText "Hola")) (graph_api PostOk) cfg
    (delivery [PyDict [("changes", PyList [anonymous; question])]]) start
  = (Normal {| body := "EVENT_RECEIVED_FROM_PAGE_ITSELF"; status := 200 |}, start).
Proof.
  apply (anonymous_comment_taken_for_own (gemini (GenText "Hola")) (graph_api PostOk) cfg
           (delivery [PyDict [("changes", PyList [anonymous; question])]])
           [] [("changes", PyList [anonymous; question])] [] anonymous [question] []
           start start (PyStr "c_6") "Hola, ¿precios?").
  - split; [reflexivity |]. eexists. repeat split; reflexivity.
  - exists start. split; reflexivity.
  - reflexivity.
  - reflexivity.
  - reflexivity.
Defined.
